(** * Credential lifecycle and event dispatch of queue-orquestration

    A shallow embedding of
    - auth-service/src/providers/token_provider.py,
    - auth-service/src/controllers/usercontroller.py (logout, password reset,
      e-mail validation, forgot-password and send-validation resources),
    - notification-service/src/services/kafkaservice.py,
    - gateway/src/middlewares/__init__.py,
    followed by the properties of these functions.

    Python functions become computations in a state-and-exception monad over
    a [world] that holds the Flask request context, the dict objects on the
    heap, the cache, standard output, the logger's records and the threads
    that were started.  Third-party libraries (PyJWT, kafka-python, decouple,
    marshmallow, the ORM) and repository modules that are not part of the
    sources at hand ([src.messages], [src.models], [src.schemas],
    [src.logging]) enter as the fields of [Platform]. *)

From Stdlib Require Import ZArith String Ascii List Lia.
From stdpp Require Import base option countable gmap strings list fin_maps pretty.

Local Open Scope Z_scope.
Local Open Scope string_scope.

(** ** Python values *)

(** The values carried by claim sets, event payloads and path parameters.
    [VObj] is any other object (a [UUID], a [Decimal], ...), kept with the
    text [str()] gives for it; such an object is truthy, has no [encode]
    method and is not JSON serialisable.  Instants ([datetime] objects and the
    numeric dates of a token) are whole seconds since the epoch, as [VInt]. *)
Inductive pyval : Type :=
| VNone
| VBool (b : bool)
| VInt (n : Z)
| VStr (s : string)
| VObj (repr : string).

Abbreviation dict := (gmap string pyval).

(** [bool(v)] *)
Definition truthy (v : pyval) : bool :=
  match v with
  | VNone => false
  | VBool b => b
  | VInt n => negb (Z.eqb n 0)
  | VStr s => negb (String.eqb s "")
  | VObj _ => true
  end.

(** [bool(s)] for a [str] *)
Definition truthy_str (s : string) : bool := negb (String.eqb s "").

(** [bool(x)] for a [str] or [None] *)
Definition truthy_opt (o : option string) : bool :=
  match o with
  | Some s => truthy_str s
  | None => false
  end.

(** [str(v)] *)
Definition py_str (v : pyval) : string :=
  match v with
  | VNone => "None"
  | VBool true => "True"
  | VBool false => "False"
  | VInt n => pretty n
  | VStr s => s
  | VObj r => r
  end.

(** [s.replace(old, new)] for a non-empty [old]: every occurrence, scanning
    from the left without overlap.  [skip] counts the characters of the
    occurrence just replaced that are still to be dropped. *)
Fixpoint str_replace_from (old new : string) (skip : nat) (s : string) : string :=
  match s with
  | EmptyString => EmptyString
  | String a s' =>
      match skip with
      | S k => str_replace_from old new k s'
      | O =>
          if String.prefix old s
          then new +:+ str_replace_from old new (String.length old - 1) s'
          else String a (str_replace_from old new O s')
      end
  end.

Definition str_replace (old new s : string) : string :=
  str_replace_from old new 0 s.

(** [sep.join(parts)] *)
Fixpoint str_join (sep : string) (parts : list string) : string :=
  match parts with
  | [] => ""
  | [p] => p
  | p :: rest => p +:+ sep +:+ str_join sep rest
  end.

(** The character [c] occurs in [s]. *)
Fixpoint str_mem (c : ascii) (s : string) : bool :=
  match s with
  | EmptyString => false
  | String a s' => Ascii.eqb a c || str_mem c s'
  end.

(** ** Exceptions *)

(** The exception classes the modelled code raises or names in an [except]
    clause.  A constructor stands for the class and its subclasses
    ([KafkaError] for [NoBrokersAvailable], [KafkaTimeoutError], ...;
    [InvalidTokenError] for [DecodeError], [ExpiredSignatureError],
    [InvalidSignatureError], ...).  All are subclasses of [Exception]. *)
Inductive exn : Type :=
| KeyError (key : string)
| AttributeError (what : string)
| TypeError (what : string)
| ValueError (what : string)
| KafkaError (what : string)
| InvalidTokenError (what : string)
| UndefinedValueError (name : string)
| ValidationError (messages : string)
| UnsupportedMediaType
| OtherException (what : string).

Definition is_KafkaError (e : exn) : bool :=
  match e with KafkaError _ => true | _ => false end.

Definition is_InvalidTokenError (e : exn) : bool :=
  match e with InvalidTokenError _ => true | _ => false end.

Definition is_UnsupportedMediaType (e : exn) : bool :=
  match e with UnsupportedMediaType => true | _ => false end.

Definition is_ValidationError (e : exn) : bool :=
  match e with ValidationError _ => true | _ => false end.

(** [str(e)] *)
Definition exn_str (e : exn) : string :=
  match e with
  | KeyError k => "'" +:+ k +:+ "'"
  | AttributeError s | TypeError s | ValueError s | KafkaError s
  | InvalidTokenError s | UndefinedValueError s | ValidationError s
  | OtherException s => s
  | UnsupportedMediaType => "415 Unsupported Media Type"
  end.

(** What a call produces: a value, or an exception in flight. *)
Inductive outcome (A : Type) : Type :=
| Ret (a : A)
| Raise (e : exn).
Arguments Ret {A} a.
Arguments Raise {A} e.

(** ** Responses *)

(** The constants of [src.messages] that the modelled handlers use, by name
    (the module's texts are not part of the sources at hand). *)
Inductive message : Type :=
| ERR_TOKEN_GENERATE
| TOKEN_IS_MISSING
| INVALID_TOKEN_FORMAT
| TOKEN_IS_INVALID
| UNAUTHORIZED_USER
| LOGOUT_SUCCESSFULLY
| INTERNAL_SERVER_ERROR
| USER_NOT_FOUND
| USER_NON_VALIDATED_EMAIL
| USER_VALIDATED_SUCCESSFULLY
| USER_ALREADY_VALIDATED
| EMAIL_SENT_SUCCESSFULLY
| UNSUPPORTED_MEDIA_TYPE
| BAD_REQUEST.

Definition message_name (m : message) : string :=
  match m with
  | ERR_TOKEN_GENERATE => "ERR_TOKEN_GENERATE"
  | TOKEN_IS_MISSING => "TOKEN_IS_MISSING"
  | INVALID_TOKEN_FORMAT => "INVALID_TOKEN_FORMAT"
  | TOKEN_IS_INVALID => "TOKEN_IS_INVALID"
  | UNAUTHORIZED_USER => "UNAUTHORIZED_USER"
  | LOGOUT_SUCCESSFULLY => "LOGOUT_SUCCESSFULLY"
  | INTERNAL_SERVER_ERROR => "INTERNAL_SERVER_ERROR"
  | USER_NOT_FOUND => "USER_NOT_FOUND"
  | USER_NON_VALIDATED_EMAIL => "USER_NON_VALIDATED_EMAIL"
  | USER_VALIDATED_SUCCESSFULLY => "USER_VALIDATED_SUCCESSFULLY"
  | USER_ALREADY_VALIDATED => "USER_ALREADY_VALIDATED"
  | EMAIL_SENT_SUCCESSFULLY => "EMAIL_SENT_SUCCESSFULLY"
  | UNSUPPORTED_MEDIA_TYPE => "UNSUPPORTED_MEDIA_TYPE"
  | BAD_REQUEST => "BAD_REQUEST"
  end.

(** The body of a response: [{'message': m}], [{'message': <schema errors>}],
    [{'user': data}], or any other body (the gateway's proxied responses). *)
Inductive body : Type :=
| BMessage (m : message)
| BErrors (e : string)
| BUser (data : dict)
| BOther (text : string).

(** A handler's [(body, status)] pair. *)
Abbreviation response := (body * Z)%type.

(** ** The world *)

Record user : Type := User {
  u_email : string;
  u_uuid : pyval;
  u_email_valid : bool;
}.

(** The Flask request context: what the modelled code reads of the request,
    and the two attributes the gateway's middleware attaches to it. *)
Record request : Type := Request {
  headers : gmap string string;
  endpoint : option string;
  url_rule : option string;
  view_args : option (list (string * pyval));
  remote_addr : pyval;
  method : string;
  get_json : outcome dict;
  transaction_id : option string;
  start_time : option Z;
}.

(** An entry of the cache: the stored value and the [timeout] argument of the
    [cache.set] call that stored it ([None] when the call passed none and the
    cache's configured default applies). *)
Record cache_entry : Type := CacheEntry {
  ce_value : string;
  ce_timeout : option Z;
}.

(** [Thread(target=KafkaService().producer, args=(topic, key, value)).start()] *)
Record thread : Type := ProducerThread {
  th_topic : pyval;
  th_key : pyval;
  th_value : dict;
}.

(** [Logger().dispatch(level, module, function, text)] *)
Record log_record : Type := LogRecord {
  lr_level : string;
  lr_module : string;
  lr_function : string;
  lr_text : string;
}.

Abbreviation loc := positive.

Record world : Type := World {
  w_request : request;
  w_now : Z;
  w_draws : nat;
  w_heap : gmap loc dict;
  w_cache : gmap string cache_entry;
  w_stdout : list string;
  w_log : list log_record;
  w_threads : list thread;
}.

Definition set_request (r : request) (w : world) : world :=
  World r (w_now w) (w_draws w) (w_heap w) (w_cache w) (w_stdout w) (w_log w) (w_threads w).
Definition set_now (t : Z) (w : world) : world :=
  World (w_request w) t (w_draws w) (w_heap w) (w_cache w) (w_stdout w) (w_log w) (w_threads w).
Definition set_draws (n : nat) (w : world) : world :=
  World (w_request w) (w_now w) n (w_heap w) (w_cache w) (w_stdout w) (w_log w) (w_threads w).
Definition set_heap (h : gmap loc dict) (w : world) : world :=
  World (w_request w) (w_now w) (w_draws w) h (w_cache w) (w_stdout w) (w_log w) (w_threads w).
Definition set_cache (c : gmap string cache_entry) (w : world) : world :=
  World (w_request w) (w_now w) (w_draws w) (w_heap w) c (w_stdout w) (w_log w) (w_threads w).
Definition set_stdout (o : list string) (w : world) : world :=
  World (w_request w) (w_now w) (w_draws w) (w_heap w) (w_cache w) o (w_log w) (w_threads w).
Definition set_log (l : list log_record) (w : world) : world :=
  World (w_request w) (w_now w) (w_draws w) (w_heap w) (w_cache w) (w_stdout w) l (w_threads w).
Definition set_threads (t : list thread) (w : world) : world :=
  World (w_request w) (w_now w) (w_draws w) (w_heap w) (w_cache w) (w_stdout w) (w_log w) t.

(** ** The monad of Python computations *)

Definition py (A : Type) : Type := world → outcome A * world.

Definition ret {A} (a : A) : py A := λ w, (Ret a, w).
Definition raise {A} (e : exn) : py A := λ w, (Raise e, w).
Definition bind {A B} (m : py A) (k : A → py B) : py B :=
  λ w, match m w with
       | (Ret a, w') => k a w'
       | (Raise e, w') => (Raise e, w')
       end.

Declare Scope py_scope.
Delimit Scope py_scope with py.
Notation "x <- m ;; k" := (bind m (λ x, k))
  (at level 100, m at next level, right associativity) : py_scope.
Notation "m ;;; k" := (bind m (λ _, k))
  (at level 100, k at level 200, right associativity) : py_scope.
Local Open Scope py_scope.

(** A library call without effect on the world. *)
Definition lift {A} (o : outcome A) : py A := λ w, (o, w).

(** [try: body except <classes>: handler]: [handler e] is [None] when no
    [except] clause of the statement matches [e], which then propagates. *)
Definition try_except {A} (body : py A) (handler : exn → option (py A)) : py A :=
  λ w, match body w with
       | (Ret a, w') => (Ret a, w')
       | (Raise e, w') =>
           match handler e with
           | Some h => h w'
           | None => (Raise e, w')
           end
       end.

Definition get_world : py world := λ w, (Ret w, w).
Definition modify (f : world → world) : py unit := λ w, (Ret tt, f w).

(** [print(line)] *)
Definition print (line : string) : py unit :=
  modify (λ w, set_stdout (w_stdout w ++ [line]) w).

(** [Logger().dispatch(level, module, function, text)] *)
Definition Logger_dispatch (level modl func text : string) : py unit :=
  modify (λ w, set_log (w_log w ++ [LogRecord level modl func text]) w).

(** [Thread(target=KafkaService().producer, args=(topic, key, value,)).start()]:
    the thread is recorded as started; its body is not run by the caller. *)
Definition Thread_start (topic key : pyval) (value : dict) : py unit :=
  modify (λ w, set_threads (w_threads w ++ [ProducerThread topic key value]) w).

(** [cache.get(key)] *)
Definition cache_get (key : string) : py (option string) :=
  λ w, (Ret (ce_value <$> w_cache w !! key), w).

(** [cache.set(key, value, timeout=timeout)] *)
Definition cache_set (key value : string) (timeout : option Z) : py unit :=
  modify (λ w, set_cache (<[key := CacheEntry value timeout]> (w_cache w)) w).

(** [d[key] = v] on the dict object at [l] *)
Definition dict_setitem (l : loc) (key : string) (v : pyval) : py unit :=
  λ w, match w_heap w !! l with
       | Some d => (Ret tt, set_heap (<[l := <[key := v]> d]> (w_heap w)) w)
       | None => (Raise (OtherException "no such object"), w)
       end.

(** The dict object at [l], read. *)
Definition deref (l : loc) : py dict :=
  λ w, match w_heap w !! l with
       | Some d => (Ret d, w)
       | None => (Raise (OtherException "no such object"), w)
       end.

(** A dict display [{...}]: a new object. *)
Definition new_dict (d : dict) : py loc :=
  λ w, let l := fresh (dom (w_heap w)) in
       (Ret l, set_heap (<[l := d]> (w_heap w)) w).

(** [d[key]] *)
Definition getitem (d : dict) (key : string) : py pyval :=
  match d !! key with
  | Some v => ret v
  | None => raise (KeyError key)
  end.

(** [datetime.utcnow()], [time.time()] *)
Definition clock : py Z := λ w, (Ret (w_now w), w).

(** ** Libraries and repository modules outside the sources at hand *)

Class Platform : Type := {
  (** the process environment and the [.env] settings *)
  environ : gmap string string;
  (** [jwt.encode(payload, key, algorithm=alg)] *)
  jwt_encode : dict → string → string → outcome string;
  (** [jwt.decode(token, key, algorithms=algs)] at the given instant *)
  jwt_decode : string → string → list string → Z → outcome dict;
  (** [UserModel.get_by_email(email=e)] *)
  get_by_email : pyval → outcome (option user);
  (** [UserModel.validate_email(user)] *)
  validate_email : user → outcome unit;
  (** [schema.load(data)] for the schema of the given name *)
  schema_load : string → dict → outcome unit;
  (** [userschemas.UserGetSchema().dump(obj)] *)
  schema_dump : user → outcome dict;
  (** [str(d)] for a [datetime] *)
  str_datetime : Z → string;
  (** the n-th [str(uuid.uuid4())] of the process *)
  uuid4_draw : nat → string;
  (** [app.name] *)
  app_name : string;
}.

(** The kafka-python client, as far as the modelled code calls it: each field
    is what the call produces in the deployment at hand. *)
Class Kafka : Type := {
  (** [KafkaConsumer(config...)] at the given instant *)
  KafkaConsumer_init : Z → outcome unit;
  (** [kafka_consumer.subscribe(topics)] *)
  KafkaConsumer_subscribe : list string → outcome unit;
  (** [kafka_consumer.poll(0.5)] *)
  KafkaConsumer_poll : outcome unit;
  (** [KafkaProducer(config...)] *)
  KafkaProducer_init : outcome unit;
  (** [kafka_producer.send(topic, key=key_bytes, value=value)], which runs the
      configured [value_serializer] on [value] *)
  KafkaProducer_send : pyval → string → dict → outcome unit;
  (** [kafka_producer.flush()] *)
  KafkaProducer_flush : outcome unit;
  (** [kafka_producer.close()] *)
  KafkaProducer_close : outcome unit;
}.

(** A record pulled from the channel: what [message.key.decode('utf-8')] and
    [json.loads(message.value.decode('utf-8'))] produce for it. *)
Record kafka_message : Type := KafkaMessage {
  km_key : outcome string;
  km_value : outcome pyval;
}.

(** ** auth-service/src/providers/token_provider.py *)

Module token_provider.
Section token_provider.
Context `{Platform}.

Definition ACCESS_TOKEN_EXPIRE : Z := 30.

(** [timedelta(days=n)], in seconds *)
Definition timedelta_days (n : Z) : Z := n * 86400.

(** decouple's [config(name)] *)
Definition config_env (name : string) : py string :=
  match environ !! name with
  | Some v => ret v
  | None => raise (UndefinedValueError name)
  end.

(** [jwt.decode(token, config_env('SECRET_KEY'),
               algorithms=[config_env('ALGORITHM')])] *)
Definition jwt_decode_configured (token : string) : py dict :=
  secret <- config_env "SECRET_KEY" ;;
  alg <- config_env "ALGORITHM" ;;
  now <- clock ;;
  lift (jwt_decode token secret [alg] now).

(** [create_token(payload)]; [payload] is the caller's dict object. *)
Definition create_token (payload : loc) : py (response + string) :=
  now <- clock ;;
  let exp := now + timedelta_days ACCESS_TOKEN_EXPIRE in
  dict_setitem payload "exp" (VInt exp) ;;;
  secret <- config_env "SECRET_KEY" ;;
  alg <- config_env "ALGORITHM" ;;
  claims <- deref payload ;;
  token <- lift (jwt_encode claims secret alg) ;;
  if negb (truthy_str token)
  then ret (inl (BMessage ERR_TOKEN_GENERATE, 400))
  else ret (inr token).

(** [verify_token(f)]: the decorated function. *)
Definition verify_token (f : dict → py response) : py response :=
  w <- get_world ;;
  match headers (w_request w) !! "Authorization" with
  | None => ret (BMessage TOKEN_IS_MISSING, 401)
  | Some token =>
      if negb (String.prefix "Bearer " token)
      then ret (BMessage INVALID_TOKEN_FORMAT, 401)
      else
        let token := str_replace "Bearer " "" token in
        cache_token <- cache_get ("BLACKLIST_TOKEN_" +:+ token) ;;
        if truthy_opt cache_token
        then ret (BMessage TOKEN_IS_INVALID, 401)
        else
          decoded <- try_except
                       (user <- jwt_decode_configured token ;; ret (Some user))
                       (λ _, Some (ret None)) ;;
          match decoded with
          | None => ret (BMessage TOKEN_IS_INVALID, 401)
          | Some user_authenticated => f user_authenticated
          end
  end.

(** [verify_token_email(token)]: the claim set, or the error pair. *)
Definition verify_token_email (token : string) : py (response + dict) :=
  try_except
    (user <- jwt_decode_configured (str_replace "Bearer " "" token) ;;
     ret (inr user))
    (λ e, if is_InvalidTokenError e
          then Some (ret (inl (BMessage TOKEN_IS_INVALID, 401)))
          else None).

(** [admin_required(f)]: the decorated function, on [args[0]]. *)
Definition admin_required (f : dict → py response) (user : dict) : py response :=
  is_admin <- getitem user "is_admin" ;;
  if negb (truthy is_admin)
  then ret (BMessage UNAUTHORIZED_USER, 401)
  else f user.

End token_provider.
End token_provider.

(** ** auth-service/src/controllers/usercontroller.py *)

Module usercontroller.
Section usercontroller.
Context `{Platform}.
Import token_provider.

Definition __module_name__ : string := "src.controllers.usercontroller".

(** seconds in [60 * 60 * 24 * 7] *)
Definition SINGLE_USE_TIMEOUT : Z := 60 * 60 * 24 * 7.

(** [request.headers[name]] *)
Definition headers_getitem (name : string) : py string :=
  w <- get_world ;;
  match headers (w_request w) !! name with
  | Some v => ret v
  | None => raise (KeyError name)
  end.

(** [request.headers.get(name)] *)
Definition headers_get (name : string) : py pyval :=
  w <- get_world ;;
  match headers (w_request w) !! name with
  | Some v => ret (VStr v)
  | None => ret VNone
  end.

(** [validate_schema(schema, data)] *)
Definition validate_schema (schema : string) (data : dict) : py (option string) :=
  try_except
    (lift (schema_load schema data) ;;; ret None)
    (λ e, match e with
          | ValidationError messages => Some (ret (Some messages))
          | _ => None
          end).

(** The inner [try] around [request.get_json()] that the [post] handlers
    share: the parsed body, or the response the [except] clauses return. *)
Definition request_get_json (func : string) : py (response + dict) :=
  try_except
    (w <- get_world ;;
     data <- lift (get_json (w_request w)) ;;
     ret (inr data))
    (λ e, Some (Logger_dispatch "INFO" __module_name__ func (exn_str e) ;;;
                if is_UnsupportedMediaType e
                then ret (inl (BMessage UNSUPPORTED_MEDIA_TYPE, 415))
                else ret (inl (BMessage BAD_REQUEST, 400)))).

(** The outer [except Exception as e] of every handler. *)
Definition internal_server_error (func : string) (e : exn) : option (py response) :=
  Some (Logger_dispatch "CRITICAL" __module_name__ func (exn_str e) ;;;
        ret (BMessage INTERNAL_SERVER_ERROR, 500)).

(** [bool(x)] for what [verify_token_email] returns: a non-empty tuple is
    true, a dict is true unless it is empty. *)
Definition truthy_verified (x : response + dict) : bool :=
  match x with
  | inl _ => true
  | inr d => negb (bool_decide (d = ∅))
  end.

(** [x[key]] for what [verify_token_email] returns *)
Definition verified_getitem (x : response + dict) (key : string) : py pyval :=
  match x with
  | inl _ => raise (TypeError "tuple indices must be integers or slices, not str")
  | inr d => getitem d key
  end.

(** [f'{token}'] for what [create_token] returns *)
Definition str_token (t : response + string) : string :=
  match t with
  | inr token => token
  | inl (BMessage m, status) =>
      "({'message': " +:+ message_name m +:+ "}, " +:+ pretty status +:+ ")"
  | inl (_, status) => "({...}, " +:+ pretty status +:+ ")"
  end.

(** [LogoutResource.get], under [@token_provider.verify_token] *)
Definition LogoutResource_get : py response :=
  verify_token (λ user_authenticated,
    try_except
      (authorization <- headers_getitem "Authorization" ;;
       let token := str_replace "Bearer " "" authorization in
       cache_set ("BLACKLIST_TOKEN_" +:+ token) token None ;;;
       uuid <- getitem user_authenticated "uuid" ;;
       Logger_dispatch "INFO" __module_name__ "LogoutResource.post"
         ("User " +:+ py_str uuid +:+ " logged out successfully") ;;;
       ret (BMessage LOGOUT_SUCCESSFULLY, 200))
      (internal_server_error "LogoutResource.post")).

(** [ResetPasswordResource.get(token)] *)
Definition ResetPasswordResource_get (token : string) : py response :=
  let func := "ResetPasswordResource.get" in
  try_except
    (cache_token <- cache_get ("BLACKLIST_TOKEN_" +:+ token) ;;
     if truthy_opt cache_token
     then
       Logger_dispatch "INFO" __module_name__ func
         ("Token " +:+ token +:+ " is blacklisted") ;;;
       ret (BMessage TOKEN_IS_INVALID, 401)
     else
       user_authenticated <- verify_token_email token ;;
       if negb (truthy_verified user_authenticated)
       then
         Logger_dispatch "INFO" __module_name__ func
           ("Token " +:+ token +:+ " is invalid") ;;;
         ret (BMessage TOKEN_IS_INVALID, 401)
       else
         email <- verified_getitem user_authenticated "email" ;;
         user <- lift (get_by_email email) ;;
         match user with
         | None =>
             Logger_dispatch "INFO" __module_name__ func
               ("User " +:+ py_str email +:+ " not found") ;;;
             ret (BMessage USER_NOT_FOUND, 404)
         | Some user =>
             if negb (u_email_valid user)
             then
               Logger_dispatch "INFO" __module_name__ func
                 ("User " +:+ py_str email +:+ " not validated") ;;;
               ret (BMessage USER_NON_VALIDATED_EMAIL, 400)
             else
               cache_set ("BLACKLIST_TOKEN_" +:+ token) token
                 (Some SINGLE_USE_TIMEOUT) ;;;
               user_data <- lift (schema_dump user) ;;
               ret (BMessage USER_VALIDATED_SUCCESSFULLY, 200)
         end)
    (internal_server_error func).

(** [ValidateEmailResource.get(token)] *)
Definition ValidateEmailResource_get (token : string) : py response :=
  let func := "ValidateEmailResource.get" in
  try_except
    (cache_token <- cache_get ("BLACKLIST_TOKEN_" +:+ token) ;;
     if truthy_opt cache_token
     then
       Logger_dispatch "INFO" __module_name__ func
         ("Token " +:+ token +:+ " is blacklisted") ;;;
       ret (BMessage TOKEN_IS_INVALID, 401)
     else
       user_authenticated <- verify_token_email token ;;
       if negb (truthy_verified user_authenticated)
       then
         Logger_dispatch "INFO" __module_name__ func
           ("Token " +:+ token +:+ " is invalid") ;;;
         ret (BMessage TOKEN_IS_INVALID, 401)
       else
         email <- verified_getitem user_authenticated "email" ;;
         user <- lift (get_by_email email) ;;
         match user with
         | None =>
             Logger_dispatch "INFO" __module_name__ func
               ("User " +:+ py_str email +:+ " not found") ;;;
             ret (BMessage USER_NOT_FOUND, 404)
         | Some user =>
             if u_email_valid user
             then
               Logger_dispatch "INFO" __module_name__ func
                 ("User " +:+ py_str email +:+ " already validated") ;;;
               ret (BMessage USER_ALREADY_VALIDATED, 400)
             else
               failed <- try_except
                           (lift (validate_email user) ;;;
                            Logger_dispatch "INFO" __module_name__ func
                              ("User " +:+ py_str email +:+ " validated successfully") ;;;
                            ret None)
                           (λ e, Some (Logger_dispatch "CRITICAL" __module_name__ func
                                         (exn_str e) ;;;
                                       ret (Some (BMessage INTERNAL_SERVER_ERROR, 500)))) ;;
               match failed with
               | Some error => ret error
               | None =>
                   cache_set ("BLACKLIST_TOKEN_" +:+ token) token
                     (Some SINGLE_USE_TIMEOUT) ;;;
                   user_data <- lift (schema_dump user) ;;
                   ret (BMessage USER_VALIDATED_SUCCESSFULLY, 200)
               end
         end)
    (internal_server_error func).

(** [ForgotPasswordResource.post] *)
Definition ForgotPasswordResource_post : py response :=
  let func := "ForgotPasswordResource.post" in
  try_except
    (parsed <- request_get_json func ;;
     match parsed with
     | inl error => ret error
     | inr data =>
         schema_validate <- validate_schema "ForgotPasswordSchema" data ;;
         if truthy_opt schema_validate
         then
           Logger_dispatch "INFO" __module_name__ func
             ("Schema validation error: " +:+ default "" schema_validate) ;;;
           ret (BErrors (default "" schema_validate), 400)
         else
           email <- getitem data "email" ;;
           user <- lift (get_by_email email) ;;
           match user with
           | None =>
               Logger_dispatch "INFO" __module_name__ func
                 ("User " +:+ py_str email +:+ " not found") ;;;
               ret (BMessage USER_NOT_FOUND, 404)
           | Some user =>
               claims <- new_dict {[ "email" := VStr (u_email user) ]} ;;
               token <- create_token claims ;;
               host <- config_env "API_GATEWAY_HOST" ;;
               let url := host +:+ "/auth/users/reset-password/" +:+ str_token token +:+ "/" in
               transaction_id <- headers_get "X-TRANSACTION-ID" ;;
               email <- getitem data "email" ;;
               let payload : dict :=
                 {[ "transaction_id" := transaction_id;
                    "email" := email;
                    "subject" := VStr "Recovey Password";
                    "template" := VStr ("<html><body><a href='" +:+ url +:+
                                        "'>Clique aqui</a></body></html>") ]} in
               topic <- config_env "TOPIC_SEND_EMAIL_RECOVERY_PASSWORD" ;;
               Thread_start (VStr topic) (u_uuid user) payload ;;;
               topic <- config_env "TOPIC_SEND_EMAIL_RECOVERY_PASSWORD" ;;
               Logger_dispatch "INFO" __module_name__ func
                 ("Email sent topic " +:+ topic) ;;;
               ret (BMessage EMAIL_SENT_SUCCESSFULLY, 200)
           end
     end)
    (internal_server_error func).

(** [SendEmailValidationResource.post] *)
Definition SendEmailValidationResource_post : py response :=
  let func := "SendEmailValidationResource.post" in
  try_except
    (parsed <- request_get_json func ;;
     match parsed with
     | inl error => ret error
     | inr data =>
         schema_validate <- validate_schema "UserSendEmailValidationSchema" data ;;
         if truthy_opt schema_validate
         then
           Logger_dispatch "INFO" __module_name__ func
             ("Schema validation error: " +:+ default "" schema_validate) ;;;
           ret (BErrors (default "" schema_validate), 400)
         else
           email <- getitem data "email" ;;
           user <- lift (get_by_email email) ;;
           match user with
           | None =>
               Logger_dispatch "INFO" __module_name__ func
                 ("User " +:+ py_str email +:+ " not found") ;;;
               ret (BMessage USER_NOT_FOUND, 404)
           | Some user =>
               if u_email_valid user
               then
                 Logger_dispatch "INFO" __module_name__ func
                   ("User " +:+ py_str email +:+ " already validated") ;;;
                 ret (BMessage USER_ALREADY_VALIDATED, 400)
               else
               claims <- new_dict {[ "email" := VStr (u_email user) ]} ;;
               token <- create_token claims ;;
               host <- config_env "API_GATEWAY_HOST" ;;
               let url := host +:+ "/auth/users/validate-email/" +:+ str_token token +:+ "/" in
               transaction_id <- headers_get "X-TRANSACTION-ID" ;;
               email <- getitem data "email" ;;
               let payload : dict :=
                 {[ "transaction_id" := transaction_id;
                    "email" := email;
                    "subject" := VStr "Account Validation";
                    "template" := VStr ("<html><body><a href='" +:+ url +:+
                                        "'>Clique aqui</a></body></html>") ]} in
               topic <- config_env "TOPIC_SEND_EMAIL_VALIDATION_ACCOUNT" ;;
               Thread_start (VStr topic) (u_uuid user) payload ;;;
               topic <- config_env "TOPIC_SEND_EMAIL_VALIDATION_ACCOUNT" ;;
               Logger_dispatch "INFO" __module_name__ func
                 ("Email sent topic " +:+ topic) ;;;
               ret (BMessage EMAIL_SENT_SUCCESSFULLY, 200)
           end
     end)
    (internal_server_error func).

End usercontroller.
End usercontroller.

(** ** notification-service/src/services/kafkaservice.py *)

Module kafkaservice.
Section kafkaservice.
Context `{Kafka}.

(** [sleep(seconds)]: the clock moves on by [seconds]; nothing else in the
    model moves it. *)
Definition sleep (seconds : Z) : py unit :=
  modify (λ w, set_now (w_now w + seconds) w).

(** [key.encode('utf-8')] *)
Definition str_encode (key : pyval) : py string :=
  match key with
  | VStr s => ret s
  | VNone => raise (AttributeError "'NoneType' object has no attribute 'encode'")
  | _ => raise (AttributeError "object has no attribute 'encode'")
  end.

(** [KafkaService.is_broker_available] *)
Definition is_broker_available : py bool :=
  try_except
    (now <- clock ;;
     lift (KafkaConsumer_init now) ;;;
     ret true)
    (λ e, if is_KafkaError e then Some (ret false) else None).

(** [KafkaService.wait_for_broker]: the [while] loop, run for at most [fuel]
    probes; [None] when the loop is still running after them. *)
Fixpoint wait_for_broker (fuel : nat) (w : world) : option (outcome unit * world) :=
  match fuel with
  | O => None
  | S fuel' =>
      match is_broker_available w with
      | (Ret true, w') => Some (Ret tt, w')
      | (Ret false, w') =>
          match sleep 1 w' with
          | (Ret _, w'') => wait_for_broker fuel' w''
          | (Raise e, w'') => Some (Raise e, w'')
          end
      | (Raise e, w') => Some (Raise e, w')
      end
  end.

(** The [for message in kafka_consumer] loop over the records the channel
    delivers, in arrival order. *)
Fixpoint consume (callback : string → pyval → py unit)
    (inbox : list kafka_message) : py unit :=
  match inbox with
  | [] => ret tt
  | message :: rest =>
      lift KafkaConsumer_poll ;;;
      key <- lift (km_key message) ;;
      msg <- lift (km_value message) ;;
      callback key msg ;;;
      consume callback rest
  end.

(** How the body of [consumer] stands once the records of [inbox] are dealt
    with: still in the loop, waiting for the next record, or returned. *)
Inductive consumer_state : Type :=
| Waiting
| Returned.

(** [KafkaService.consumer], after [wait_for_broker]: the [try] statement. *)
Definition consumer_subscribed (topic : string)
    (callback : string → pyval → py unit)
    (inbox : list kafka_message) : py consumer_state :=
  try_except
    (now <- clock ;;
     lift (KafkaConsumer_init now) ;;;
     lift (KafkaConsumer_subscribe [topic]) ;;;
     consume callback inbox ;;;
     ret Waiting)
    (λ e, if is_KafkaError e
          then Some (print ("Erro ao enviar a mensagem: " +:+ exn_str e) ;;;
                     ret Returned)
          else None).

(** [KafkaService.consumer(app, topic, callback)], with [fuel] probes for the
    wait loop. *)
Definition consumer (fuel : nat) (topic : string)
    (callback : string → pyval → py unit)
    (inbox : list kafka_message) (w : world)
    : option (outcome consumer_state * world) :=
  match wait_for_broker fuel w with
  | None => None
  | Some (Ret _, w') => Some (consumer_subscribed topic callback inbox w')
  | Some (Raise e, w') => Some (Raise e, w')
  end.

(** [KafkaService.producer(topic, key, value)] *)
Definition producer (topic key : pyval) (value : dict) : py unit :=
  try_except
    (lift KafkaProducer_init ;;;
     key_bytes <- str_encode key ;;
     lift (KafkaProducer_send topic key_bytes value) ;;;
     lift KafkaProducer_flush ;;;
     lift KafkaProducer_close)
    (λ e, if is_KafkaError e
          then Some (print ("Erro ao enviar a mensagem: " +:+ exn_str e))
          else None).

End kafkaservice.
End kafkaservice.

(** ** gateway/src/middlewares/__init__.py *)

Module middlewares.
Section middlewares.
Context `{Platform}.

(** [os.getenv(name)] *)
Definition os_getenv (name : string) : pyval :=
  match environ !! name with
  | Some v => VStr v
  | None => VNone
  end.

(** [str(uuid.uuid4())] *)
Definition uuid4 : py string :=
  λ w, (Ret (uuid4_draw (w_draws w)), set_draws (S (w_draws w)) w).

(** [request.transaction_id = v] *)
Definition set_transaction_id (v : string) (r : request) : request :=
  Request (headers r) (endpoint r) (url_rule r) (view_args r) (remote_addr r)
    (method r) (get_json r) (Some v) (start_time r).

(** [request.start_time = t] *)
Definition set_start_time (t : Z) (r : request) : request :=
  Request (headers r) (endpoint r) (url_rule r) (view_args r) (remote_addr r)
    (method r) (get_json r) (transaction_id r) (Some t).

(** [request.<name>] for an attribute the middleware attaches *)
Definition getattr {A} (name : string) (field : option A) : py A :=
  match field with
  | Some v => ret v
  | None => raise (AttributeError ("'Request' object has no attribute '" +:+ name +:+ "'"))
  end.

(** [add_transaction_id] *)
Definition add_transaction_id : py unit :=
  w <- get_world ;;
  let request := w_request w in
  if truthy_opt (headers request !! "X-TRANSACTION-ID")
  then
    modify (λ w, set_request
                   (set_transaction_id
                      (default "" (headers request !! "X-TRANSACTION-ID"))
                      (w_request w)) w)
  else
    fresh_id <- uuid4 ;;
    modify (λ w, set_request (set_transaction_id fresh_id (w_request w)) w).

(** [start_timer] *)
Definition start_timer : py unit :=
  now <- clock ;;
  modify (λ w, set_request (set_start_time now (w_request w)) w).

(** The functions [load] registers with [@app.before_request], run in the
    order of their registration. *)
Definition before_request : py unit :=
  add_transaction_id ;;;
  start_timer.

(** [', '.join(str(value) for value in list(request.view_args.values()))
     if request.view_args else ''] *)
Definition params_text (args : option (list (string * pyval))) : string :=
  match args with
  | Some (item :: items) => str_join ", " (py_str ∘ snd <$> item :: items)
  | _ => ""
  end.

(** [register_request_log(response)] *)
Definition register_request_log (resp : response) : py response :=
  w <- get_world ;;
  let request := w_request w in
  if bool_decide (endpoint request = Some "health")
  then ret resp
  else
    now <- clock ;;
    transaction_id <- getattr "transaction_id" (transaction_id request) ;;
    finish <- clock ;;
    start <- getattr "start_time" (start_time request) ;;
    let payload : dict :=
      {[ "datetime" := VStr (str_datetime now);
         "service" := VStr app_name;
         "transaction_id" := VStr transaction_id;
         "ip" := remote_addr request;
         "method" := VStr (method request);
         "endpoint" := VStr (default "NOT_FOUND" (url_rule request));
         "params" := VStr (params_text (view_args request));
         "status" := VInt (snd resp);
         "duration" := VInt (finish - start) ]} in
    Thread_start (os_getenv "TOPIC_REQUESTS_LOG") (VStr app_name) payload ;;;
    ret resp.

End middlewares.
End middlewares.

(** ** The guard's state machine, as the specification words it

    Section 4.3 of the specification: the terminal state a request reaches,
    from what the guards of the transitions observe.  This definition follows
    the specification, not the code; [guard_refines] below compares the two. *)

Module guard_spec.

Inductive reason : Type :=
| TOKEN_MISSING
| BAD_FORMAT
| INVALID
| UNAUTHORIZED.

Inductive terminal : Type :=
| Rejected (r : reason)
| Authorized (claims : dict).

(** What the transitions' guards ask of a request. *)
Record observation : Type := Observation {
  has_header : bool;          (* a bearer header is present *)
  well_formed : bool;         (* it starts with the Bearer prefix *)
  is_revoked : bool;          (* the revocation store holds the token's key *)
  decoded : option dict;      (* decode succeeds, with these claims *)
  requires_admin : bool;      (* the route requires an administrator *)
}.

(** [claims.is_admin] *)
Definition is_admin (claims : dict) : bool :=
  match claims !! "is_admin" with
  | Some v => truthy v
  | None => false
  end.

Definition run (o : observation) : terminal :=
  if negb (has_header o) then Rejected TOKEN_MISSING
  else if negb (well_formed o) then Rejected BAD_FORMAT
  else if is_revoked o then Rejected INVALID
  else match decoded o with
       | None => Rejected INVALID
       | Some claims =>
           if requires_admin o && negb (is_admin claims)
           then Rejected UNAUTHORIZED
           else Authorized claims
       end.

(** The stable reason code of a rejection: the constant of [src.messages]. *)
Definition reason_message (r : reason) : message :=
  match r with
  | TOKEN_MISSING => TOKEN_IS_MISSING
  | BAD_FORMAT => INVALID_TOKEN_FORMAT
  | INVALID => TOKEN_IS_INVALID
  | UNAUTHORIZED => UNAUTHORIZED_USER
  end.

End guard_spec.

(** ** The guard of the code, seen from outside *)

Section guard.
Context `{Platform}.
Import token_provider.

(** A route under [@verify_token], and under [@admin_required] as well when
    it requires an administrator (the stacking of [UsersResource.post] and
    [ValidateAdminResource.get]). *)
Definition guarded (requires_admin : bool) (f : dict → py response) : py response :=
  verify_token (if requires_admin then admin_required f else f).

(** The token the code takes from an [Authorization] header. *)
Definition bearer_token (authorization : string) : string :=
  str_replace "Bearer " "" authorization.

(** The key of a token in the revocation store. *)
Definition blacklist_key (token : string) : string :=
  "BLACKLIST_TOKEN_" +:+ token.

(** The check [verify_token] makes of the cache: [cache.get(key)] is true. *)
Definition blacklisted (w : world) (token : string) : bool :=
  truthy_opt (ce_value <$> w_cache w !! blacklist_key token).

(** What the guards of the state machine observe in a world. *)
Definition observe (requires_admin : bool) (w : world) : guard_spec.observation :=
  let authorization := headers (w_request w) !! "Authorization" in
  let token := bearer_token (default "" authorization) in
  guard_spec.Observation
    (bool_decide (is_Some authorization))
    (String.prefix "Bearer " (default "" authorization))
    (bool_decide (is_Some (w_cache w !! blacklist_key token)))
    (match jwt_decode_configured token w with
     | (Ret claims, _) => Some claims
     | (Raise _, _) => None
     end)
    requires_admin.

(** What the caller sees of a terminal state: the rejection with its reason
    code and status 401, or whatever the wrapped handler does with the
    claims. *)
Definition respond (f : dict → py response) (t : guard_spec.terminal) : py response :=
  match t with
  | guard_spec.Rejected r => ret (BMessage (guard_spec.reason_message r), 401)
  | guard_spec.Authorized claims => f claims
  end.

(** Every entry of the cache holds a non-empty value: the handlers store
    the token itself under its key. *)
Definition cache_values_true (w : world) : Prop :=
  ∀ key entry, w_cache w !! key = Some entry → ce_value entry ≠ "".

(** The registered claims other than [exp], as PyJWT's [decode] validates
    them when it is called the way the code calls it, with a key and the
    algorithms only: a payload that carries [aud] is refused, no audience
    having been given; [nbf] and [iat] are integers that are not in the
    future; [sub] and [jti] are strings. *)
Definition other_claims_valid (payload : dict) (now : Z) : bool :=
  match payload !! "aud" with None => true | Some _ => false end
  && match payload !! "nbf" with
     | None => true
     | Some (VInt nbf) => Z.leb nbf now
     | Some _ => false
     end
  && match payload !! "iat" with
     | None => true
     | Some (VInt iat) => Z.leb iat now
     | Some _ => false
     end
  && match payload !! "sub" with
     | None | Some (VStr _) => true
     | Some _ => false
     end
  && match payload !! "jti" with
     | None | Some (VStr _) => true
     | Some _ => false
     end.

(** [exp], where present, is an integer instant that has not passed. *)
Definition exp_valid (payload : dict) (now : Z) : bool :=
  match payload !! "exp" with
  | None => true
  | Some (VInt exp) => Z.ltb now exp
  | Some _ => false
  end.

(** The payload passes the decoder's validation at the instant [now]. *)
Definition registered_claims_valid (payload : dict) (now : Z) : bool :=
  exp_valid payload now && other_claims_valid payload now.

(** What this development assumes of PyJWT: a token is a non-empty string
    without blanks, and decoding a token with the key and algorithm it was
    issued with gives back the payload at every instant at which the
    payload's registered claims pass the decoder's validation.  Nothing is
    assumed of a payload the decoder refuses.  Instants are whole seconds:
    the encoder writes a [datetime] as its integer timestamp, and that
    integer is what the decoder gives back. *)
Record jwt_laws : Prop := JwtLaws {
  jwt_token_true : ∀ payload key alg token,
    jwt_encode payload key alg = Ret token → token ≠ "";
  jwt_token_no_blank : ∀ payload key alg token,
    jwt_encode payload key alg = Ret token → str_mem " " token = false;
  jwt_round_trip : ∀ payload key alg token now,
    jwt_encode payload key alg = Ret token →
    registered_claims_valid payload now = true →
    jwt_decode token key [alg] now = Ret payload;
}.

End guard.

(** ** The correlation identifier, seen from outside *)

Section correlation.
Context `{Platform}.

(** [request.headers.get(name)] in world [w], as a value. *)
Definition header_value (w : world) (name : string) : pyval :=
  match headers (w_request w) !! name with
  | Some v => VStr v
  | None => VNone
  end.

(** The identifier the gateway gives the request of world [w]: the value of
    its [X-TRANSACTION-ID] header when that is present and not empty,
    otherwise the next draw of [uuid4]. *)
Definition correlation_id (w : world) : string :=
  match headers (w_request w) !! "X-TRANSACTION-ID" with
  | Some v => if truthy_str v then v else uuid4_draw (w_draws w)
  | None => uuid4_draw (w_draws w)
  end.

(** The [transaction_id] fields of the payloads of the given threads. *)
Definition transaction_ids (ts : list thread) : list (option pyval) :=
  (λ t, th_value t !! "transaction_id") <$> ts.

(** The keys of the audit payload, as section 6 of the specification lists
    them. *)
Definition audit_fields : gset string :=
  {[ "datetime"; "service"; "transaction_id"; "ip"; "method"; "endpoint";
     "params"; "status"; "duration" ]}.

End correlation.

(** ** The availability probe, seen from outside *)

Section broker.
Context `{Kafka}.

(** At instant [t] the broker accepts the probe's connection. *)
Definition accepts (t : Z) : Prop := KafkaConsumer_init t = Ret tt.

(** At instant [t] the probe fails with a [KafkaError]: the broker is
    reported unavailable. *)
Definition refuses (t : Z) : Prop :=
  ∃ e, KafkaConsumer_init t = Raise e ∧ is_KafkaError e = true.

(** The line [producer] and [consumer] print for a caught exception. *)
Definition failure_line (e : exn) : string :=
  "Erro ao enviar a mensagem: " +:+ exn_str e.

End broker.

(** ** More of auth-service/src/controllers/usercontroller.py *)

(** What the handlers below use of [UserModel], [hash_provider] and the
    interpreter, beyond [Platform]. *)
Class Accounts : Type := {
  (** [int(text)] for a [str]; [None] when it raises [ValueError] *)
  py_int : string → option Z;
  (** [user_db.to_json()] *)
  to_json : user → dict;
  (** [user_db.password] *)
  u_password : user → string;
  (** [hash_provider.check_password_hash(password, hashed)] *)
  check_password_hash : pyval → string → outcome bool;
}.

Module usercontroller_more.
Section usercontroller_more.
Context `{Platform} `{Accounts}.
Import token_provider usercontroller.

(** The bodies [LoginResource.post] answers with: [{'message': m}] for the
    constants already listed, for [messages.INVALID_CREDENTIALS] and for
    [messages.ERROR_CREATING_TOKEN], [{'message': <schema errors>}], and
    [{'token': t, 'user': data}].  (The responses of the shared
    [request.get_json()] block are carried over with their message.) *)
Inductive login_body : Type :=
| LMessage (m : message)
| LInvalidCredentials
| LErrorCreatingToken
| LErrors (e : string)
| LToken (token : string) (user : dict).

(** [request.args.get(key, default, type=int)]: the default when the key is
    absent or its text is no integer. *)
Definition args_get_int (args : gmap string string) (key : string) (default_ : Z) : Z :=
  match args !! key with
  | None => default_
  | Some text =>
      match py_int text with
      | Some n => n
      | None => default_
      end
  end.

(** [get_page_args()], on [request.args] *)
Definition get_page_args (args : gmap string string) : py (Z * Z * Z) :=
  let page := args_get_int args "page" 1 in
  per_page_text <- config_env "PER_PAGE" ;;
  per_page_default <- match py_int per_page_text with
                      | Some n => ret n
                      | None => raise (ValueError "invalid literal for int() with base 10")
                      end ;;
  let per_page := args_get_int args "per_page" per_page_default in
  let offset := (page - 1) * per_page in
  ret (page, per_page, offset).

(** [LoginResource.post] *)
Definition LoginResource_post : py (login_body * Z) :=
  let func := "LoginResource.post" in
  try_except
    (parsed <- request_get_json func ;;
     match parsed with
     | inl (BMessage m, status) => ret (LMessage m, status)
     | inl (_, status) => ret (LMessage BAD_REQUEST, status)
     | inr user =>
         schema_validate <- validate_schema "UserLoginSchema" user ;;
         if truthy_opt schema_validate
         then
           Logger_dispatch "INFO" __module_name__ func
             ("Schema validation error: " +:+ default "" schema_validate) ;;;
           ret (LErrors (default "" schema_validate), 400)
         else
           email <- getitem user "email" ;;
           user_db <- lift (get_by_email email) ;;
           match user_db with
           | None =>
               Logger_dispatch "INFO" __module_name__ func
                 ("User " +:+ py_str email +:+ " not found") ;;;
               ret (LInvalidCredentials, 401)
           | Some user_db =>
               if negb (u_email_valid user_db)
               then
                 Logger_dispatch "INFO" __module_name__ func
                   ("User " +:+ py_str email +:+ " not validated") ;;;
                 ret (LMessage USER_NON_VALIDATED_EMAIL, 400)
               else
                 password <- getitem user "password" ;;
                 matches <- lift (check_password_hash password (u_password user_db)) ;;
                 if negb matches
                 then
                   Logger_dispatch "INFO" __module_name__ func
                     ("User " +:+ py_str email +:+ " invalid credentials") ;;;
                   ret (LInvalidCredentials, 401)
                 else
                   issued <- try_except
                               (payload <- new_dict (to_json user_db) ;;
                                token <- create_token payload ;;
                                Logger_dispatch "INFO" __module_name__ func
                                  ("User " +:+ py_str email +:+ " logged in successfully") ;;;
                                ret (Some token))
                               (λ e, Some (Logger_dispatch "CRITICAL" __module_name__ func
                                             ("Error creating token: " +:+ exn_str e) ;;;
                                           ret None)) ;;
                   match issued with
                   | None => ret (LErrorCreatingToken, 401)
                   | Some token =>
                       user_data <- lift (schema_dump user_db) ;;
                       ret (LToken ("Bearer " +:+ str_token token) user_data, 200)
                   end
           end
     end)
    (λ e, Some (Logger_dispatch "CRITICAL" __module_name__ func (exn_str e) ;;;
                ret (LMessage INTERNAL_SERVER_ERROR, 500))).

End usercontroller_more.
End usercontroller_more.

(** ** gateway/src/docs/gateway.py *)

Module gateway_docs.

(** The JSON-like values of the Swagger document: strings and dicts, a dict
    being the list of its items in insertion order. *)
#[warnings="-register-all"]
Inductive json : Type :=
| JStr (s : string)
| JObj (items : list (string * json)).

(** [d[key] = v]: the value is replaced in place, or the item appended. *)
Fixpoint dict_set (key : string) (v : json) (d : list (string * json))
    : list (string * json) :=
  match d with
  | [] => [(key, v)]
  | (k, x) :: rest =>
      if String.eqb k key then (k, v) :: rest else (k, x) :: dict_set key v rest
  end.

(** [d.update(other)] *)
Definition dict_update (other d : list (string * json)) : list (string * json) :=
  fold_left (λ acc item, dict_set item.1 item.2 acc) other d.

(** [d.get(key)] *)
Fixpoint dict_get (key : string) (d : list (string * json)) : option json :=
  match d with
  | [] => None
  | (k, x) :: rest => if String.eqb k key then Some x else dict_get key rest
  end.

(** A marshmallow field, as [convert_to_swagger_dict] reads it: the lower-case
    name of its class, and the fields of its [schema] (read for the class
    [Nested] only), in the order of [fields.items()]. *)
#[warnings="-register-all"]
Inductive field : Type :=
| Field (class_name : string) (schema : list (string * field)).

(** The [for] loop of [convert_to_swagger_dict]: [properties] after the
    fields, given the [types] dict each field gets. *)
Definition properties_of (types_of : field → list (string * json))
    (fields : list (string * field)) : list (string * json) :=
  fold_left (λ properties item, dict_set item.1 (JObj (types_of item.2)) properties)
    fields [].

(** The body of the loop: the [types] dict of one field.  For a nested
    field, [types] is first updated with the document of its schema. *)
Fixpoint types_of (field_obj : field) : list (string * json) :=
  match field_obj with
  | Field field_type schema =>
      let '(types, field_type, field_format) :=
        if String.eqb field_type "datetime" then ([], "string", "date-time")
        else if String.eqb field_type "email" then ([], "string", "email")
        else if String.eqb field_type "dict" then ([], "object", "")
        else if String.eqb field_type "list"
        then (dict_update [("items", JObj (dict_update [] []))] [], "array", "")
        else if String.eqb field_type "nested"
        then (dict_update
                (dict_update
                   [("type", JStr "object");
                    ("properties", JObj (properties_of types_of schema))] [])
                [],
              "object", "")
        else ([], field_type, "") in
      let types := dict_update [("type", JStr field_type)] types in
      if truthy_str field_format
      then dict_update [("format", JStr field_format)] types
      else types
  end.

(** [convert_to_swagger_dict(schema)], on [schema.fields] *)
Definition convert_to_swagger_dict (fields : list (string * field))
    : list (string * json) :=
  [("type", JStr "object"); ("properties", JObj (properties_of types_of fields))].

End gateway_docs.

(** ** Requests that differ in one header *)


(** PyJWT does not decode the empty token. *)
Definition jwt_rejects_empty `{Platform} : Prop :=
  ∀ key algs now, ∃ e, jwt_decode "" key algs now = Raise e.

(** The payload the handlers that send an action e-mail have signed: the
    user's e-mail, and the expiration [create_token] adds at [issued_at]. *)
Definition action_claims (email : string) (issued_at : Z) : dict :=
  <["exp" := VInt (issued_at + 30 * 86400)]> {[ "email" := VStr email ]}.

(** ** A deployment to run the code in

    A small, total stand-in for each library, used to run the definitions
    above on concrete requests. *)

Module demo.

#[global] Instance pyval_eq_dec : EqDecision pyval.
Proof. solve_decision. Defined.

#[global] Instance pyval_countable : Countable pyval.
Proof.
  refine (inj_countable'
    (λ v, match v with
          | VNone => inl ()
          | VBool b => inr (inl b)
          | VInt n => inr (inr (inl n))
          | VStr s => inr (inr (inr (inl s)))
          | VObj r => inr (inr (inr (inr r)))
          end)
    (λ x, match x with
          | inl _ => VNone
          | inr (inl b) => VBool b
          | inr (inr (inl n)) => VInt n
          | inr (inr (inr (inl s))) => VStr s
          | inr (inr (inr (inr r))) => VObj r
          end) _).
  by intros [].
Defined.

(** A positive number as a string of binary digits, and back. *)
Fixpoint pos_bits (p : positive) : string :=
  match p with
  | xH => ""
  | xO q => String "0" (pos_bits q)
  | xI q => String "1" (pos_bits q)
  end.

Fixpoint bits_pos (s : string) : option positive :=
  match s with
  | EmptyString => Some xH
  | String a s' =>
      if Ascii.eqb a "0" then xO <$> bits_pos s'
      else if Ascii.eqb a "1" then xI <$> bits_pos s'
      else None
  end.

(** The checks PyJWT's [decode] makes of the registered claims of a payload
    whose signature it has verified, in its order: [iat], [nbf], [exp], then
    [aud] against the audience the caller gave, here none.  Each gives the
    [InvalidTokenError] it raises, if any. *)
Definition toy_checks (payload : dict) (now : Z) : list (option exn) :=
  [ match payload !! "iat" with
    | None => None
    | Some (VInt iat) =>
        if Z.leb iat now then None
        else Some (InvalidTokenError "The token is not yet valid (iat)")
    | Some _ => Some (InvalidTokenError "Issued At claim (iat) must be an integer.")
    end;
    match payload !! "nbf" with
    | None => None
    | Some (VInt nbf) =>
        if Z.leb nbf now then None
        else Some (InvalidTokenError "The token is not yet valid (nbf)")
    | Some _ => Some (InvalidTokenError "Not Before claim (nbf) must be an integer.")
    end;
    match payload !! "exp" with
    | None => None
    | Some (VInt exp) =>
        if Z.ltb now exp then None
        else Some (InvalidTokenError "Signature has expired")
    | Some _ =>
        Some (InvalidTokenError "Expiration Time claim (exp) must be an integer.")
    end;
    match payload !! "aud" with
    | None => None
    | Some _ => Some (InvalidTokenError "Invalid audience")
    end ].

(** The first check that fails decides. *)
Definition toy_validate (payload : dict) (now : Z) : outcome dict :=
  match omap id (toy_checks payload now) with
  | e :: _ => Raise e
  | [] => Ret payload
  end.

(** A keyed codec with the shape of a token library: the token spells out
    payload, key and algorithm; decoding checks key and algorithm, then the
    registered claims. *)
Definition toy_encode (payload : dict) (key alg : string) : outcome string :=
  Ret ("jwt" +:+ pos_bits (encode (payload, key, alg))).

Definition toy_decode (token key : string) (algs : list string) (now : Z)
    : outcome dict :=
  match token with
  | String "j" (String "w" (String "t" bits)) =>
      match bits_pos bits ≫= decode with
      | Some (payload, key', alg) =>
          if bool_decide (key' = key) && bool_decide (alg ∈ algs)
          then toy_validate payload now
          else Raise (InvalidTokenError "Signature verification failed")
      | None => Raise (InvalidTokenError "Invalid payload")
      end
  | _ => Raise (InvalidTokenError "Not enough segments")
  end.

Definition alice : user := User "alice@example.com" (VStr "u1") true.
Definition bob : user := User "bob@example.com" (VStr "u2") false.

Definition platform : Platform := {|
  environ := {[ "SECRET_KEY" := "s3cret"; "ALGORITHM" := "HS256";
                "API_GATEWAY_HOST" := "http://gateway";
                "TOPIC_SEND_EMAIL_RECOVERY_PASSWORD" := "email.recovery";
                "TOPIC_SEND_EMAIL_VALIDATION_ACCOUNT" := "email.validation";
                "TOPIC_REQUESTS_LOG" := "requests.log" ]};
  jwt_encode := toy_encode;
  jwt_decode := toy_decode;
  get_by_email := λ email,
    Ret (if bool_decide (email = VStr "alice@example.com") then Some alice
         else if bool_decide (email = VStr "bob@example.com") then Some bob
         else None);
  validate_email := λ _, Ret tt;
  schema_load := λ _ _, Ret tt;
  schema_dump := λ u, Ret {[ "email" := VStr (u_email u) ]};
  str_datetime := λ t, pretty t;
  uuid4_draw := λ n, "uuid-" +:+ pretty n;
  app_name := "gateway";
|}.

(** A request with the given headers and nothing else of note. *)
Definition request_with (hs : gmap string string) : request :=
  Request hs (Some "users") (Some "/auth/users/") None (VStr "10.0.0.7") "GET"
    (Raise UnsupportedMediaType) None None.

(** The world at instant [now], serving [r], with cache [c]. *)
Definition world_at (now : Z) (r : request) (c : gmap string cache_entry) : world :=
  World r now 0 ∅ c [] [] [].

(** A handler that answers 200 with the claims it was given. *)
Definition echo (claims : dict) : py response := ret (BUser claims, 200).

(** Claim sets and the tokens the toy codec issues for them. *)
Definition claims_of (uuid : string) (admin : bool) (exp : Z) : dict :=
  {[ "uuid" := VStr uuid; "is_admin" := VBool admin; "exp" := VInt exp ]}.

Definition token_of (claims : dict) : string :=
  "jwt" +:+ pos_bits (encode (claims, "s3cret", "HS256")).

(** Broker clients: one that works, one whose broker accepts connections
    from instant [t] on, one whose broker never does, one whose [send] times
    out, and one whose [send] fails in the value serializer ([json.dumps]
    raises [TypeError]). *)
Definition kafka_up : Kafka := {|
  KafkaConsumer_init := λ _, Ret tt;
  KafkaConsumer_subscribe := λ _, Ret tt;
  KafkaConsumer_poll := Ret tt;
  KafkaProducer_init := Ret tt;
  KafkaProducer_send := λ _ _ _, Ret tt;
  KafkaProducer_flush := Ret tt;
  KafkaProducer_close := Ret tt;
|}.

Definition kafka_up_from (t : Z) : Kafka := {|
  KafkaConsumer_init := λ now,
    if Z.ltb now t then Raise (KafkaError "NoBrokersAvailable") else Ret tt;
  KafkaConsumer_subscribe := λ _, Ret tt;
  KafkaConsumer_poll := Ret tt;
  KafkaProducer_init := Ret tt;
  KafkaProducer_send := λ _ _ _, Ret tt;
  KafkaProducer_flush := Ret tt;
  KafkaProducer_close := Ret tt;
|}.

Definition kafka_down : Kafka := {|
  KafkaConsumer_init := λ _, Raise (KafkaError "NoBrokersAvailable");
  KafkaConsumer_subscribe := λ _, Ret tt;
  KafkaConsumer_poll := Ret tt;
  KafkaProducer_init := Raise (KafkaError "NoBrokersAvailable");
  KafkaProducer_send := λ _ _ _, Ret tt;
  KafkaProducer_flush := Ret tt;
  KafkaProducer_close := Ret tt;
|}.

Definition kafka_send_times_out : Kafka := {|
  KafkaConsumer_init := λ _, Ret tt;
  KafkaConsumer_subscribe := λ _, Ret tt;
  KafkaConsumer_poll := Ret tt;
  KafkaProducer_init := Ret tt;
  KafkaProducer_send := λ _ _ _, Raise (KafkaError "KafkaTimeoutError");
  KafkaProducer_flush := Ret tt;
  KafkaProducer_close := Ret tt;
|}.

Definition kafka_serializer_fails : Kafka := {|
  KafkaConsumer_init := λ _, Ret tt;
  KafkaConsumer_subscribe := λ _, Ret tt;
  KafkaConsumer_poll := Ret tt;
  KafkaProducer_init := Ret tt;
  KafkaProducer_send := λ _ _ _,
    Raise (TypeError "Object of type datetime is not JSON serializable");
  KafkaProducer_flush := Ret tt;
  KafkaProducer_close := Ret tt;
|}.

(** Handlers for the subscriber: each prints the key it handles; the first
    raises [ValueError] on the key [bad], the second a [KafkaError]. *)
Definition handler_raising (e : exn) (key : string) (msg : pyval) : py unit :=
  if bool_decide (key = "bad") then raise e
  else print ("handled " +:+ key).

(** A JSON request with the given headers and body. *)
Definition json_request (hs : gmap string string) (data : dict) : request :=
  Request hs (Some "forgotpasswordresource") (Some "/auth/users/forgot-password/")
    None (VStr "10.0.0.7") "POST" (Ret data) None None.

(** A request the gateway routed to [/users/<uuid>/], its hooks run. *)
Definition routed_request (hs : gmap string string) : request :=
  Request hs (Some "userresource") (Some "/users/<uuid>/")
    (Some [("uuid", VStr "u1")]) (VStr "10.0.0.7") "GET"
    (Raise UnsupportedMediaType) (Some "tx-1") (Some 90).

(** An idle world at instant 0. *)
Definition idle : world := world_at 0 (request_with ∅) ∅.

(** The record with the given key, its value an empty JSON object text. *)
Definition record_with (key : string) : kafka_message :=
  KafkaMessage (Ret key) (Ret (VStr "{}")).

(** The deployment without any configuration. *)
Definition platform_unconfigured : Platform := {|
  environ := ∅;
  jwt_encode := toy_encode;
  jwt_decode := toy_decode;
  get_by_email := λ _, Ret None;
  validate_email := λ _, Ret tt;
  schema_load := λ _ _, Ret tt;
  schema_dump := λ u, Ret {[ "email" := VStr (u_email u) ]};
  str_datetime := λ t, pretty t;
  uuid4_draw := λ n, "uuid-" +:+ pretty n;
  app_name := "auth";
|}.

(** Decimal digits, with an optional minus sign, as an integer. *)
Fixpoint digits_value (s : string) (acc : Z) : option Z :=
  match s with
  | EmptyString => Some acc
  | String c s' =>
      let n := Z.of_nat (nat_of_ascii c) in
      if Z.leb 48 n && Z.leb n 57 then digits_value s' (10 * acc + (n - 48)) else None
  end.

Definition parse_int (s : string) : option Z :=
  match s with
  | EmptyString => None
  | String "-" EmptyString => None
  | String "-" s' => Z.opp <$> digits_value s' 0
  | _ => digits_value s 0
  end.

(** Accounts whose password is [pw], stored as the text [hashed-pw]. *)
Definition accounts : Accounts := {|
  py_int := parse_int;
  to_json := λ u, {[ "uuid" := u_uuid u; "email" := VStr (u_email u);
                     "is_admin" := VBool false ]};
  u_password := λ _, "hashed-pw";
  check_password_hash := λ password hashed,
    match password with
    | VStr text => Ret (String.eqb ("hashed-" +:+ text) hashed)
    | _ => Raise (TypeError "password must be a str")
    end;
|}.

(** A broker client whose probe reports the broker unavailable before
    instant [t] and fails on its own configuration from then on. *)
Definition kafka_probe_crashes_from (t : Z) : Kafka := {|
  KafkaConsumer_init := λ now,
    if Z.ltb now t then Raise (KafkaError "NoBrokersAvailable")
    else Raise (ValueError "Unrecognized configs");
  KafkaConsumer_subscribe := λ _, Ret tt;
  KafkaConsumer_poll := Ret tt;
  KafkaProducer_init := Ret tt;
  KafkaProducer_send := λ _ _ _, Ret tt;
  KafkaProducer_flush := Ret tt;
  KafkaProducer_close := Ret tt;
|}.

End demo.

(** * Properties *)

(** ** Strings *)

Lemma prefix_app (p s : string) :
  String.prefix p s = true → ∃ r, s = p +:+ r.
Proof.
  revert s. induction p as [|a p IH]; intros s Hp; [by exists s|].
  destruct s as [|b s]; [discriminate Hp|].
  cbn [String.prefix] in Hp.
  destruct (ascii_dec a b) as [->|]; [|discriminate Hp].
  apply IH in Hp as [r ->]. by exists r.
Qed.

Lemma prefix_Bearer_blank (s : string) :
  String.prefix "Bearer " s = true → str_mem " " s = true.
Proof. intros [r ->]%prefix_app. reflexivity. Qed.

(** Removing the prefix text from a string without blanks changes nothing. *)
Lemma str_replace_Bearer_id (s : string) :
  str_mem " " s = false → str_replace "Bearer " "" s = s.
Proof.
  unfold str_replace. induction s as [|a s IH]; [done|].
  intros Hs. cbn [str_replace_from].
  destruct (String.prefix "Bearer " (String a s)) eqn:Hp.
  - apply prefix_Bearer_blank in Hp. congruence.
  - f_equal. apply IH. simpl in Hs. by apply orb_false_elim in Hs as [_ ?].
Qed.

Lemma truthy_str_true (s : string) : truthy_str s = true ↔ s ≠ "".
Proof.
  unfold truthy_str. rewrite negb_true_iff.
  split; intros Hs.
  - intros ->. discriminate Hs.
  - by apply String.eqb_neq.
Qed.

(** ** The token provider *)

Section token_provider_facts.
Context `{Platform}.
Import token_provider.

(** Reading the configuration and decoding leave the world as it is. *)
Lemma config_env_world (name : string) (w : world) :
  snd (config_env name w) = w.
Proof. unfold config_env. by destruct (environ !! name). Qed.

Lemma jwt_decode_configured_world (token : string) (w : world) :
  snd (jwt_decode_configured token w) = w.
Proof.
  unfold jwt_decode_configured, bind, config_env, clock, lift, raise, ret.
  by repeat (destruct (environ !! _)).
Qed.

Lemma jwt_decode_configured_Ret (token : string) (w : world) (claims : dict) (w' : world) :
  jwt_decode_configured token w = (Ret claims, w') → w' = w.
Proof. intros E. by rewrite <- (jwt_decode_configured_world token w), E. Qed.

(** With the configuration in place, decoding is the library's call. *)
Lemma jwt_decode_configured_eq (token secret alg : string) (w : world) :
  environ !! "SECRET_KEY" = Some secret →
  environ !! "ALGORITHM" = Some alg →
  jwt_decode_configured token w = (jwt_decode token secret [alg] (w_now w), w).
Proof.
  intros Hs Ha.
  unfold jwt_decode_configured, bind, config_env, clock, lift, ret.
  by rewrite Hs, Ha.
Qed.

(** The cache check of [verify_token], once every held value is true. *)
Lemma cache_get_held (w : world) (key : string) :
  cache_values_true w →
  truthy_opt (ce_value <$> w_cache w !! key) = bool_decide (is_Some (w_cache w !! key)).
Proof.
  intros Hc. destruct (w_cache w !! key) as [entry|] eqn:E.
  - transitivity true; [apply truthy_str_true; eauto|].
    symmetry. apply bool_decide_eq_true. eauto.
  - symmetry. apply bool_decide_eq_false. by intros [? ?].
Qed.

(** What [verify_token] does in each case of its header and token. *)
Lemma verify_token_no_header (f : dict → py response) (w : world) :
  headers (w_request w) !! "Authorization" = None →
  verify_token f w = (Ret (BMessage TOKEN_IS_MISSING, 401), w).
Proof. intros E. unfold verify_token, bind, get_world. by rewrite E. Qed.

Lemma verify_token_bad_format (f : dict → py response) (w : world) (h : string) :
  headers (w_request w) !! "Authorization" = Some h →
  String.prefix "Bearer " h = false →
  verify_token f w = (Ret (BMessage INVALID_TOKEN_FORMAT, 401), w).
Proof. intros E Hp. unfold verify_token, bind, get_world. by rewrite E, Hp. Qed.

Lemma verify_token_blacklisted (f : dict → py response) (w : world) (h : string) :
  headers (w_request w) !! "Authorization" = Some h →
  String.prefix "Bearer " h = true →
  blacklisted w (bearer_token h) = true →
  verify_token f w = (Ret (BMessage TOKEN_IS_INVALID, 401), w).
Proof.
  intros E Hp Hc. unfold verify_token, bind, get_world, cache_get.
  rewrite E, Hp. simpl. unfold blacklisted, blacklist_key, bearer_token in Hc. by rewrite Hc.
Qed.

Lemma verify_token_decode_fails (f : dict → py response) (w : world) (h : string) (e : exn) :
  headers (w_request w) !! "Authorization" = Some h →
  String.prefix "Bearer " h = true →
  blacklisted w (bearer_token h) = false →
  fst (jwt_decode_configured (bearer_token h) w) = Raise e →
  verify_token f w = (Ret (BMessage TOKEN_IS_INVALID, 401), w).
Proof.
  intros E Hp Hc Hd. unfold verify_token, bind, get_world, cache_get, try_except.
  rewrite E, Hp. simpl. unfold blacklisted, blacklist_key, bearer_token in *. rewrite Hc.
  pose proof (jwt_decode_configured_world (str_replace "Bearer " "" h) w) as Hw.
  destruct (jwt_decode_configured _ w) as [[claims|e'] w']; simpl in *; [done|].
  by subst.
Qed.

Lemma verify_token_decoded (f : dict → py response) (w : world) (h : string) (claims : dict) :
  headers (w_request w) !! "Authorization" = Some h →
  String.prefix "Bearer " h = true →
  blacklisted w (bearer_token h) = false →
  fst (jwt_decode_configured (bearer_token h) w) = Ret claims →
  verify_token f w = f claims w.
Proof.
  intros E Hp Hc Hd. unfold verify_token, bind, get_world, cache_get, try_except.
  rewrite E, Hp. simpl. unfold blacklisted, blacklist_key, bearer_token in *. rewrite Hc.
  pose proof (jwt_decode_configured_world (str_replace "Bearer " "" h) w) as Hw.
  destruct (jwt_decode_configured _ w) as [[claims'|e'] w']; simpl in *; [|done].
  by simplify_eq.
Qed.

(** What [admin_required] does with the flag of the claims. *)
Lemma admin_required_flag (f : dict → py response) (claims : dict) (v : pyval) (w : world) :
  claims !! "is_admin" = Some v →
  admin_required f claims w =
    if truthy v then f claims w else (Ret (BMessage UNAUTHORIZED_USER, 401), w).
Proof.
  intros E. unfold admin_required, bind, getitem. rewrite E. simpl.
  by destruct (truthy v).
Qed.

(** Where the authentication guard follows the state machine of the
    specification.  For a request, handler and route (requiring an
    administrator or not), the guarded route answers as the terminal state
    of the machine says: a rejection is the pair of the reason's message
    constant and status 401, with the world left as it was (TOKEN_MISSING
    without an Authorization header, BAD_FORMAT without the Bearer prefix,
    INVALID when the store holds the token's key or when decoding fails,
    UNAUTHORIZED when the route requires an administrator and the decoded
    claims' is_admin is false); otherwise the wrapped handler runs on the
    decoded claims.  This holds of a cache with true values only, and on an
    administrator route of decoded claims that carry the is_admin key. *)
Theorem guard_refines (requires_admin : bool) (f : dict → py response) (w : world) :
  cache_values_true w →
  (∀ claims, guard_spec.decoded (observe requires_admin w) = Some claims →
             requires_admin = true → is_Some (claims !! "is_admin")) →
  guarded requires_admin f w
  = respond f (guard_spec.run (observe requires_admin w)) w.
Proof.
  intros Hcache Hflag.
  unfold guarded, guard_spec.run, observe in *. cbn [guard_spec.has_header
    guard_spec.well_formed guard_spec.is_revoked guard_spec.decoded
    guard_spec.requires_admin] in *.
  destruct (headers (w_request w) !! "Authorization") as [h|] eqn:Eh.
  2: by rewrite verify_token_no_header.
  change (default "" (Some h)) with h in *.
  replace (bool_decide (is_Some (Some h))) with true by done.
  cbn [negb].
  destruct (String.prefix "Bearer " h) eqn:Hp; cbn [negb].
  2: by rewrite (verify_token_bad_format _ w h).
  rewrite <- (cache_get_held w _ Hcache).
  fold (blacklisted w (bearer_token h)).
  destruct (blacklisted w (bearer_token h)) eqn:Hc.
  { by rewrite (verify_token_blacklisted _ w h). }
  destruct (jwt_decode_configured (bearer_token h) w) as [[claims|e] w'] eqn:Hd.
  2: { rewrite (verify_token_decode_fails _ w h e); try done. by rewrite Hd. }
  rewrite (verify_token_decoded _ w h claims); try done; [|by rewrite Hd].
  destruct requires_admin; cbn [andb]; [|done].
  destruct (Hflag claims eq_refl eq_refl) as [v Ev].
  rewrite (admin_required_flag _ _ _ _ Ev).
  unfold guard_spec.is_admin. rewrite Ev.
  by destruct (truthy v).
Qed.

(** The guard against the state machine, for every request.  The two part
    in one case only: a route that requires an administrator, reached with a
    token that is not revoked and decodes to claims without the is_admin key;
    there the code raises [KeyError] and leaves the world as it was. *)
Theorem guard_refines_unless_flag_missing
    (requires_admin : bool) (f : dict → py response) (w : world) :
  cache_values_true w →
  guarded requires_admin f w
  = respond f (guard_spec.run (observe requires_admin w)) w
  ∨ (requires_admin = true
     ∧ ∃ claims,
         guard_spec.run (observe false w) = guard_spec.Authorized claims
         ∧ claims !! "is_admin" = None
         ∧ guarded requires_admin f w = (Raise (KeyError "is_admin"), w)).
Proof.
  intros Hcache.
  destruct (guard_spec.decoded (observe requires_admin w)) as [claims|] eqn:Hdec.
  2: { left. apply guard_refines; [done|]. intros claims Hc. congruence. }
  destruct requires_admin.
  2: { left. apply guard_refines; [done|]. intros ? _ [=]. }
  destruct (claims !! "is_admin") as [v|] eqn:Hflag.
  { left. apply guard_refines; [done|]. intros ? Hc _. simplify_eq. eauto. }
  unfold guarded, guard_spec.run, observe in *. cbn [guard_spec.has_header
    guard_spec.well_formed guard_spec.is_revoked guard_spec.decoded
    guard_spec.requires_admin] in *.
  destruct (headers (w_request w) !! "Authorization") as [h|] eqn:Eh.
  2: { left. by rewrite verify_token_no_header. }
  change (default "" (Some h)) with h in *.
  replace (bool_decide (is_Some (Some h))) with true by done.
  cbn [negb].
  destruct (String.prefix "Bearer " h) eqn:Hp; cbn [negb].
  2: { left. by rewrite (verify_token_bad_format _ w h). }
  rewrite <- (cache_get_held w _ Hcache).
  fold (blacklisted w (bearer_token h)).
  destruct (blacklisted w (bearer_token h)) eqn:Hc.
  { left. by rewrite (verify_token_blacklisted _ w h). }
  destruct (jwt_decode_configured (bearer_token h) w) as [[claims'|e] w'] eqn:Hd;
    [|done].
  injection Hdec as ->.
  right. split; [done|]. exists claims. split; [done|]. split; [done|].
  rewrite (verify_token_decoded _ w h claims); try done; [|by rewrite Hd].
  unfold admin_required, bind, getitem, raise. by rewrite Hflag.
Qed.

(** C7.  Rejection causes do not show.  Take two requests with a
    well-formed Bearer header, the token of the first blacklisted, the token
    of the second not blacklisted but failing to decode, for whatever reason
    (signature, structure, expiration).  The guard gives both the same
    response, the generic invalid-token message with status 401, and leaves
    both worlds as they were: nothing the caller sees tells the causes
    apart. *)
Theorem rejection_causes_indistinguishable
    (f1 f2 : dict → py response) (w1 w2 : world) (h1 h2 : string) (e : exn) :
  headers (w_request w1) !! "Authorization" = Some h1 →
  String.prefix "Bearer " h1 = true →
  headers (w_request w2) !! "Authorization" = Some h2 →
  String.prefix "Bearer " h2 = true →
  blacklisted w1 (bearer_token h1) = true →
  blacklisted w2 (bearer_token h2) = false →
  fst (jwt_decode_configured (bearer_token h2) w2) = Raise e →
  fst (verify_token f1 w1) = fst (verify_token f2 w2)
  ∧ verify_token f1 w1 = (Ret (BMessage TOKEN_IS_INVALID, 401), w1)
  ∧ verify_token f2 w2 = (Ret (BMessage TOKEN_IS_INVALID, 401), w2).
Proof.
  intros E1 P1 E2 P2 B1 B2 D2.
  rewrite (verify_token_blacklisted f1 w1 h1 E1 P1 B1).
  by rewrite (verify_token_decode_fails f2 w2 h2 e E2 P2 B2 D2).
Qed.

(** [create_token], step by step, on a dict object that exists. *)
Lemma create_token_eq (payload : loc) (claims : dict) (w : world) :
  w_heap w !! payload = Some claims →
  let issued := <["exp" := VInt (w_now w + 30 * 86400)]> claims in
  let w' := set_heap (<[payload := issued]> (w_heap w)) w in
  create_token payload w =
    match environ !! "SECRET_KEY", environ !! "ALGORITHM" with
    | None, _ => (Raise (UndefinedValueError "SECRET_KEY"), w')
    | Some _, None => (Raise (UndefinedValueError "ALGORITHM"), w')
    | Some secret, Some alg =>
        match jwt_encode issued secret alg with
        | Ret token =>
            (Ret (if negb (truthy_str token)
                  then inl (BMessage ERR_TOKEN_GENERATE, 400)
                  else inr token), w')
        | Raise e => (Raise e, w')
        end
    end.
Proof.
  intros Hl issued w'.
  unfold create_token, bind, clock, dict_setitem, config_env, deref, lift, ret, raise.
  cbn [w_now]. rewrite Hl.
  change (w_now w + timedelta_days ACCESS_TOKEN_EXPIRE) with (w_now w + 30 * 86400).
  fold issued. fold w'.
  destruct (environ !! "SECRET_KEY") as [secret|]; [|done].
  destruct (environ !! "ALGORITHM") as [alg|]; [|done].
  replace (w_heap w' !! payload) with (Some issued)
    by (subst w'; cbn [w_heap set_heap]; by rewrite lookup_insert_eq).
  destruct (jwt_encode issued secret alg) as [token|]; [|done].
  by destruct (negb (truthy_str token)).
Qed.

(** C10.  Issuing a token writes into the caller's mapping.  Whatever
    [create_token] goes on to produce, the world it leaves differs from the
    one it found only in the caller's dict object, which now maps [exp] to
    the instant of issue plus thirty days and agrees with the old one on
    every other key; and a token it returns is the signer's token for
    exactly that updated mapping. *)
Theorem create_token_mutates_payload (payload : loc) (claims : dict) (w : world) :
  w_heap w !! payload = Some claims →
  ∃ claims',
    snd (create_token payload w) = set_heap (<[payload := claims']> (w_heap w)) w
    ∧ claims' !! "exp" = Some (VInt (w_now w + 30 * 86400))
    ∧ (∀ key, key ≠ "exp" → claims' !! key = claims !! key)
    ∧ (∀ other, other ≠ payload →
         w_heap (snd (create_token payload w)) !! other = w_heap w !! other)
    ∧ (∀ token, fst (create_token payload w) = Ret (inr token) →
         ∃ secret alg, jwt_encode claims' secret alg = Ret token).
Proof.
  intros Hl. exists (<["exp" := VInt (w_now w + 30 * 86400)]> claims).
  pose proof (create_token_eq payload claims w Hl) as E. cbv zeta in E.
  assert (snd (create_token payload w)
          = set_heap (<[payload := <["exp" := VInt (w_now w + 30 * 86400)]> claims]>
                        (w_heap w)) w) as Hw.
  { rewrite E. destruct (environ !! "SECRET_KEY"); [|done].
    destruct (environ !! "ALGORITHM"); [|done].
    by destruct (jwt_encode _ _ _). }
  split; [done|]. split; [by rewrite lookup_insert_eq|].
  split; [by intros key Hk; rewrite lookup_insert_ne|].
  split.
  - intros other Ho. rewrite Hw. cbn [w_heap set_heap]. by rewrite lookup_insert_ne.
  - intros token. rewrite E.
    destruct (environ !! "SECRET_KEY") as [secret|]; [|done].
    destruct (environ !! "ALGORITHM") as [alg|]; [|done].
    destruct (jwt_encode _ secret alg) as [token'|] eqn:Ej; [|done].
    destruct (negb (truthy_str token')); [done|]. cbn [fst].
    intros [= ->]. eauto.
Qed.

(** Adding [exp] to a payload leaves its other registered claims alone. *)
Lemma other_claims_valid_insert_exp (claims : dict) (v : pyval) (now : Z) :
  other_claims_valid (<["exp" := v]> claims) now = other_claims_valid claims now.
Proof. unfold other_claims_valid. by rewrite !lookup_insert_ne. Qed.

Lemma registered_claims_valid_insert_exp (claims : dict) (exp now : Z) :
  now < exp →
  other_claims_valid claims now = true →
  registered_claims_valid (<["exp" := VInt exp]> claims) now = true.
Proof.
  intros Hlt Hother. unfold registered_claims_valid, exp_valid.
  rewrite lookup_insert_eq, other_claims_valid_insert_exp, Hother.
  by rewrite (proj2 (Z.ltb_lt now exp) Hlt).
Qed.


End token_provider_facts.

(** ** The stand-in token library keeps the laws *)

Lemma bits_pos_bits (p : positive) : demo.bits_pos (demo.pos_bits p) = Some p.
Proof. induction p as [p IH|p IH|]; simpl; by rewrite ?IH. Qed.

Lemma pos_bits_no_blank (p : positive) : str_mem " " (demo.pos_bits p) = false.
Proof. induction p; simpl; auto. Qed.

(** The stand-in's validation passes what [registered_claims_valid] passes. *)
Lemma toy_validate_valid (payload : dict) (now : Z) :
  registered_claims_valid payload now = true →
  demo.toy_validate payload now = Ret payload.
Proof.
  unfold registered_claims_valid, exp_valid, other_claims_valid,
    demo.toy_validate, demo.toy_checks.
  intros Hv.
  destruct (payload !! "aud"); [by rewrite ?andb_false_r in Hv|].
  destruct (payload !! "exp") as [[| |exp| |]|]; try done;
    destruct (payload !! "nbf") as [[| |nbf| |]|];
    try (by rewrite ?andb_false_r in Hv);
    destruct (payload !! "iat") as [[| |iat| |]|];
    try (by rewrite ?andb_false_r in Hv);
    repeat match type of Hv with
      | context [Z.ltb ?a ?b] => destruct (Z.ltb a b)
      | context [Z.leb ?a ?b] => destruct (Z.leb a b)
      end; done.
Qed.

Lemma demo_jwt_laws : jwt_laws (H := demo.platform).
Proof.
  split; cbn [jwt_encode jwt_decode demo.platform]; unfold demo.toy_encode.
  - by intros payload key alg token [= <-].
  - intros payload key alg token [= <-]. simpl. apply pos_bits_no_blank.
  - intros payload key alg token now [= <-] Hvalid.
    unfold demo.toy_decode.
    change ("jwt" +:+ demo.pos_bits (encode (payload, key, alg)))
      with (String "j" (String "w" (String "t"
              (demo.pos_bits (encode (payload, key, alg)))))).
    cbv iota. rewrite bits_pos_bits. cbn [mbind option_bind]. rewrite decode_encode.
    rewrite bool_decide_eq_true_2 by done.
    rewrite bool_decide_eq_true_2 by set_solver.
    cbn [andb]. by apply toy_validate_valid.
Qed.

(** ** The guard on concrete requests *)

(** A live token of a user who is no administrator, presented to a route
    that requires one. *)
Lemma guard_refines_witness :
  let w := demo.world_at 100
             (demo.request_with
                {[ "Authorization" :=
                     "Bearer " +:+ demo.token_of (demo.claims_of "u1" false 5000) ]})
             ∅ in
  guarded (H := demo.platform) true demo.echo w
  = (Ret (BMessage UNAUTHORIZED_USER, 401), w).
Proof.
  intros w.
  rewrite (guard_refines (H := demo.platform) true demo.echo w).
  - vm_compute. reflexivity.
  - intros key entry E. vm_compute in E. discriminate E.
  - intros claims Hd _. vm_compute in Hd. injection Hd as <-.
    vm_compute. eauto.
Defined.

Example guard_no_header :
  fst (guarded (H := demo.platform) false demo.echo
         (demo.world_at 100 (demo.request_with ∅) ∅))
  = Ret (BMessage TOKEN_IS_MISSING, 401).
Proof. vm_compute. reflexivity. Qed.

Example guard_bad_format :
  fst (guarded (H := demo.platform) false demo.echo
         (demo.world_at 100 (demo.request_with {[ "Authorization" := "Token abc" ]}) ∅))
  = Ret (BMessage INVALID_TOKEN_FORMAT, 401).
Proof. vm_compute. reflexivity. Qed.

Example guard_expired :
  fst (guarded (H := demo.platform) false demo.echo
         (demo.world_at 6000
            (demo.request_with
               {[ "Authorization" :=
                    "Bearer " +:+ demo.token_of (demo.claims_of "u1" false 5000) ]})
            ∅))
  = Ret (BMessage TOKEN_IS_INVALID, 401).
Proof. vm_compute. reflexivity. Qed.

Example guard_admin_passes :
  fst (guarded (H := demo.platform) true demo.echo
         (demo.world_at 100
            (demo.request_with
               {[ "Authorization" :=
                    "Bearer " +:+ demo.token_of (demo.claims_of "root" true 5000) ]})
            ∅))
  = Ret (BUser (demo.claims_of "root" true 5000), 200).
Proof. vm_compute. reflexivity. Qed.

(** C1.  A request that the guard does not answer as the state machine
    says.  The forgot-password handler signs [{'email': ...}] with the
    secret of the access tokens, and [create_token] adds [exp] and nothing
    else.  Presented as the bearer token of a route that requires an
    administrator, before its expiration and not revoked, the token is
    decoded by [verify_token].  The state machine, given claims that hold no
    true is_admin, rejects the request with UNAUTHORIZED and status 401.  The
    code subscripts the claims with ['is_admin'] outside any [try] and raises
    [KeyError]: no rejection with a reason code is returned, and the handler
    is not invoked either. *)
Theorem admin_guard_raises_on_action_token :
  let claims : dict := {[ "email" := VStr "bob@example.com" ]} in
  let issued : dict := action_claims "bob@example.com" 1000 in
  let w0 := World (demo.request_with ∅) 1000 0 {[ 1%positive := claims ]} ∅ [] [] [] in
  let w := demo.world_at 2000
             (demo.request_with
                {[ "Authorization" := "Bearer " +:+ demo.token_of issued ]})
             ∅ in
  fst (token_provider.create_token (H := demo.platform) 1%positive w0)
  = Ret (inr (demo.token_of issued))
  ∧ guard_spec.decoded (observe (H := demo.platform) true w) = Some issued
  ∧ respond demo.echo (guard_spec.run (observe (H := demo.platform) true w)) w
    = (Ret (BMessage UNAUTHORIZED_USER, 401), w)
  ∧ guarded (H := demo.platform) true demo.echo w = (Raise (KeyError "is_admin"), w).
Proof. repeat split; vm_compute; reflexivity. Qed.

(** A blacklisted live token and an expired one: the same answer. *)
Lemma rejection_causes_indistinguishable_witness :
  let live := demo.token_of (demo.claims_of "u1" false 5000) in
  let expired := demo.token_of (demo.claims_of "u1" false 50) in
  let w1 := demo.world_at 100
              (demo.request_with {[ "Authorization" := "Bearer " +:+ live ]})
              {[ blacklist_key live := CacheEntry live None ]} in
  let w2 := demo.world_at 100
              (demo.request_with {[ "Authorization" := "Bearer " +:+ expired ]})
              ∅ in
  fst (token_provider.verify_token (H := demo.platform) demo.echo w1)
  = fst (token_provider.verify_token (H := demo.platform) demo.echo w2)
  ∧ token_provider.verify_token (H := demo.platform) demo.echo w1
    = (Ret (BMessage TOKEN_IS_INVALID, 401), w1)
  ∧ token_provider.verify_token (H := demo.platform) demo.echo w2
    = (Ret (BMessage TOKEN_IS_INVALID, 401), w2).
Proof.
  intros live expired w1 w2.
  apply (rejection_causes_indistinguishable (H := demo.platform)
           demo.echo demo.echo w1 w2
           ("Bearer " +:+ live) ("Bearer " +:+ expired)
           (InvalidTokenError "Signature has expired"));
    vm_compute; reflexivity.
Defined.

(** Issuing for the dict object [{'email': ...}] at instant 1000. *)
Lemma create_token_mutates_payload_witness :
  let claims : dict := {[ "email" := VStr "alice@example.com" ]} in
  let w := World (demo.request_with ∅) 1000 0 {[ 1%positive := claims ]} ∅ [] [] [] in
  ∃ claims',
    snd (token_provider.create_token (H := demo.platform) 1%positive w)
    = set_heap (<[1%positive := claims']> (w_heap w)) w
    ∧ claims' !! "exp" = Some (VInt (1000 + 30 * 86400))
    ∧ (∀ key, key ≠ "exp" → claims' !! key = claims !! key)
    ∧ (∀ other, other ≠ 1%positive →
         w_heap (snd (token_provider.create_token (H := demo.platform) 1%positive w))
           !! other = w_heap w !! other)
    ∧ (∀ token,
         fst (token_provider.create_token (H := demo.platform) 1%positive w)
         = Ret (inr token) →
         ∃ secret alg, jwt_encode (Platform := demo.platform) claims' secret alg
                       = Ret token).
Proof.
  intros claims w.
  apply (create_token_mutates_payload (H := demo.platform) 1%positive claims w).
  reflexivity.
Defined.



(** ** The Kafka service *)

Lemma set_now_same (w : world) : set_now (w_now w) w = w.
Proof. by destruct w. Qed.

Lemma set_now_twice (t t' : Z) (w : world) : set_now t (set_now t' w) = set_now t w.
Proof. by destruct w. Qed.

Section kafka_facts.
Context `{Kafka}.
Import kafkaservice.

Lemma is_broker_available_eq (w : world) :
  is_broker_available w =
    match KafkaConsumer_init (w_now w) with
    | Ret _ => (Ret true, w)
    | Raise e => if is_KafkaError e then (Ret false, w) else (Raise e, w)
    end.
Proof.
  unfold is_broker_available, try_except, bind, clock, lift, ret.
  destruct (KafkaConsumer_init (w_now w)) as [[]|e]; [done|].
  by destruct (is_KafkaError e).
Qed.

(** One turn of the [while] loop. *)
Lemma wait_for_broker_S (fuel : nat) (w : world) :
  wait_for_broker (S fuel) w =
    match KafkaConsumer_init (w_now w) with
    | Ret _ => Some (Ret tt, w)
    | Raise e =>
        if is_KafkaError e
        then wait_for_broker fuel (set_now (w_now w + 1) w)
        else Some (Raise e, w)
    end.
Proof.
  cbn [wait_for_broker]. rewrite is_broker_available_eq.
  destruct (KafkaConsumer_init (w_now w)) as [[]|e]; [done|].
  by destruct (is_KafkaError e).
Qed.

Lemma wait_for_broker_returns (fuel : nat) (w w' : world) :
  wait_for_broker fuel w = Some (Ret tt, w') →
  ∃ n : nat, (n < fuel)%nat
    ∧ w' = set_now (w_now w + Z.of_nat n) w
    ∧ accepts (w_now w + Z.of_nat n)
    ∧ ∀ i : nat, (i < n)%nat → refuses (w_now w + Z.of_nat i).
Proof.
  revert w. induction fuel as [|fuel IH]; intros w; [done|].
  rewrite wait_for_broker_S.
  destruct (KafkaConsumer_init (w_now w)) as [[]|e] eqn:Ei.
  - intros [= <-]. exists 0%nat. rewrite Z.add_0_r, set_now_same.
    repeat split; [lia|done|lia].
  - destruct (is_KafkaError e) eqn:Ek; [|done].
    intros (n & Hn & -> & Ha & Hr)%IH. cbn [w_now set_now] in *.
    exists (S n). rewrite set_now_twice.
    replace (w_now w + Z.of_nat (S n)) with (w_now w + 1 + Z.of_nat n) by lia.
    repeat split; [lia|done|].
    intros [|i] Hi.
    + rewrite Z.add_0_r. by exists e.
    + replace (w_now w + Z.of_nat (S i)) with (w_now w + 1 + Z.of_nat i) by lia.
      apply Hr. lia.
Qed.

Lemma wait_for_broker_first_success (n fuel : nat) (w : world) :
  accepts (w_now w + Z.of_nat n) →
  (∀ i : nat, (i < n)%nat → refuses (w_now w + Z.of_nat i)) →
  (n < fuel)%nat →
  wait_for_broker fuel w = Some (Ret tt, set_now (w_now w + Z.of_nat n) w).
Proof.
  revert fuel w. induction n as [|n IH]; intros [|fuel] w Ha Hr Hf; try lia;
    rewrite wait_for_broker_S.
  - rewrite Z.add_0_r in *. unfold accepts in Ha. by rewrite Ha, set_now_same.
  - destruct (Hr 0%nat) as (e & Ei & Ek); [lia|].
    rewrite Z.add_0_r in Ei. rewrite Ei, Ek.
    rewrite (IH fuel (set_now (w_now w + 1) w)); cbn [w_now set_now].
    + rewrite set_now_twice. do 3 f_equal. lia.
    + by replace (w_now w + 1 + Z.of_nat n) with (w_now w + Z.of_nat (S n)) by lia.
    + intros i Hi.
      replace (w_now w + 1 + Z.of_nat i) with (w_now w + Z.of_nat (S i)) by lia.
      apply Hr. lia.
    + lia.
Qed.

Lemma wait_for_broker_never (fuel : nat) (w : world) :
  (∀ i : nat, refuses (w_now w + Z.of_nat i)) →
  wait_for_broker fuel w = None.
Proof.
  revert w. induction fuel as [|fuel IH]; intros w Hr; [done|].
  rewrite wait_for_broker_S.
  destruct (Hr 0%nat) as (e & Ei & Ek). rewrite Z.add_0_r in Ei. rewrite Ei, Ek.
  apply IH. intros i. cbn [w_now set_now].
  replace (w_now w + 1 + Z.of_nat i) with (w_now w + Z.of_nat (S i)) by lia.
  apply Hr.
Qed.

Lemma wait_for_broker_terminates (n : nat) (w : world) :
  accepts (w_now w + Z.of_nat n) →
  ∃ r, wait_for_broker (S n) w = Some r.
Proof.
  revert w. induction n as [|n IH]; intros w Ha; rewrite wait_for_broker_S.
  - rewrite Z.add_0_r in Ha. unfold accepts in Ha. rewrite Ha. eauto.
  - destruct (KafkaConsumer_init (w_now w)) as [[]|e]; [eauto|].
    destruct (is_KafkaError e); [|eauto].
    apply IH. cbn [w_now set_now].
    by replace (w_now w + 1 + Z.of_nat n) with (w_now w + Z.of_nat (S n)) by lia.
Qed.

(** C9.  The wait loop of the subscriber.  From any world: (1) when the
    loop returns, it has made n probes that reported the broker unavailable,
    one second of sleep after each, at the instants now, now+1, ..., and the
    probe at now+n found the broker accepting connections; no other part of
    the world changed; (2) if the probe first succeeds at now+n, whatever n,
    the loop returns there, given more than n turns; (3) if some probe
    succeeds at all, the loop ends; (4) while every probe reports the broker
    unavailable the loop does not return, however many turns it is given:
    there is no bound on the retries. *)
Theorem wait_for_broker_spec (w : world) :
  (∀ fuel w', wait_for_broker fuel w = Some (Ret tt, w') →
     ∃ n : nat, (n < fuel)%nat
       ∧ w' = set_now (w_now w + Z.of_nat n) w
       ∧ accepts (w_now w + Z.of_nat n)
       ∧ ∀ i : nat, (i < n)%nat → refuses (w_now w + Z.of_nat i))
  ∧ (∀ n fuel : nat,
       accepts (w_now w + Z.of_nat n) →
       (∀ i : nat, (i < n)%nat → refuses (w_now w + Z.of_nat i)) →
       (n < fuel)%nat →
       wait_for_broker fuel w = Some (Ret tt, set_now (w_now w + Z.of_nat n) w))
  ∧ (∀ n : nat, accepts (w_now w + Z.of_nat n) →
       ∃ r, wait_for_broker (S n) w = Some r)
  ∧ ((∀ i : nat, refuses (w_now w + Z.of_nat i)) →
       ∀ fuel, wait_for_broker fuel w = None).
Proof.
  split; [|split; [|split]].
  - intros fuel w'. apply wait_for_broker_returns.
  - intros n fuel. apply wait_for_broker_first_success.
  - intros n. apply wait_for_broker_terminates.
  - intros Hr fuel. by apply wait_for_broker_never.
Qed.

(** The loop over the records, cut in two. *)
Lemma consume_app (callback : string → pyval → py unit)
    (before after : list kafka_message) (w : world) :
  consume callback (before ++ after) w =
    match consume callback before w with
    | (Ret _, w') => consume callback after w'
    | (Raise e, w') => (Raise e, w')
    end.
Proof.
  revert w. induction before as [|m before IH]; intros w; [done|].
  cbn [app consume]. unfold bind, lift.
  destruct KafkaConsumer_poll; [|done].
  destruct (km_key m); [|done]. destruct (km_value m); [|done].
  destruct (callback _ _ w) as [[[]|e] w1]; [|done]. apply IH.
Qed.

(** C5, as the code has it.  Let the subscriber be connected and
    subscribed, let the records of [before] be handled without an exception,
    and let the handler raise [e] on the next record.  If [e] is a
    [KafkaError], the subscriber prints the failure and returns: the loop is
    left, and no record of [after] reaches the handler.  If [e] is of any
    other class, it propagates out of the subscriber.  In both cases the
    world is the one the failing handler left (plus the printed line), the
    same whatever [after] holds. *)
Theorem consumer_stops_at_handler_failure
    (topic : string) (callback : string → pyval → py unit)
    (before after : list kafka_message) (message : kafka_message)
    (key : string) (msg : pyval) (e : exn) (w w1 w2 : world) :
  KafkaConsumer_init (w_now w) = Ret tt →
  KafkaConsumer_subscribe [topic] = Ret tt →
  KafkaConsumer_poll = Ret tt →
  consume callback before w = (Ret tt, w1) →
  km_key message = Ret key →
  km_value message = Ret msg →
  callback key msg w1 = (Raise e, w2) →
  consumer_subscribed topic callback (before ++ message :: after) w =
    if is_KafkaError e
    then (Ret Returned, set_stdout (w_stdout w2 ++ [failure_line e]) w2)
    else (Raise e, w2).
Proof.
  intros Hi Hs Hp Hb Hk Hv Hc.
  unfold consumer_subscribed, try_except, bind, clock, lift.
  rewrite Hi, Hs, consume_app, Hb.
  cbn [consume]. unfold bind, lift. rewrite Hp, Hk, Hv, Hc.
  by destruct (is_KafkaError e).
Qed.

(** C3, as the code has it.  Let every exception the broker client raises,
    on connecting, sending, flushing or closing, be a [KafkaError], and let
    the key be a [str].  Then [producer] returns normally: either all four
    calls succeeded and nothing was printed, or one of them raised, and the
    failure line of that exception was printed. *)
Theorem producer_catches_KafkaError
    (topic : pyval) (key : string) (value : dict) (w : world) :
  (∀ e, KafkaProducer_init = Raise e → is_KafkaError e = true) →
  (∀ e, KafkaProducer_send topic key value = Raise e → is_KafkaError e = true) →
  (∀ e, KafkaProducer_flush = Raise e → is_KafkaError e = true) →
  (∀ e, KafkaProducer_close = Raise e → is_KafkaError e = true) →
  (KafkaProducer_init = Ret tt
   ∧ KafkaProducer_send topic key value = Ret tt
   ∧ KafkaProducer_flush = Ret tt
   ∧ KafkaProducer_close = Ret tt
   ∧ producer topic (VStr key) value w = (Ret tt, w))
  ∨ (∃ e, is_KafkaError e = true
       ∧ (KafkaProducer_init = Raise e
          ∨ KafkaProducer_send topic key value = Raise e
          ∨ KafkaProducer_flush = Raise e
          ∨ KafkaProducer_close = Raise e)
       ∧ producer topic (VStr key) value w
         = (Ret tt, set_stdout (w_stdout w ++ [failure_line e]) w)).
Proof.
  intros Hi Hs Hf Hc.
  unfold producer, try_except, bind, lift, str_encode, ret, print, modify.
  destruct KafkaProducer_init as [[]|e] eqn:Ei.
  2: { right. exists e. rewrite (Hi e eq_refl). eauto. }
  destruct (KafkaProducer_send topic key value) as [[]|e] eqn:Es.
  2: { right. exists e. rewrite (Hs e eq_refl). eauto 6. }
  destruct KafkaProducer_flush as [[]|e] eqn:Ef.
  2: { right. exists e. rewrite (Hf e eq_refl). eauto 6. }
  destruct KafkaProducer_close as [[]|e] eqn:Ec.
  2: { right. exists e. rewrite (Hc e eq_refl). eauto 7. }
  by left.
Qed.

(** An exception of another class leaves [producer] as it came. *)
Lemma producer_send_escapes
    (topic : pyval) (key : string) (value : dict) (w : world) (e : exn) :
  KafkaProducer_init = Ret tt →
  KafkaProducer_send topic key value = Raise e →
  is_KafkaError e = false →
  producer topic (VStr key) value w = (Raise e, w).
Proof.
  intros Hi Hs Hk.
  unfold producer, try_except, bind, lift, str_encode, ret.
  by rewrite Hi, Hs, Hk.
Qed.

End kafka_facts.

(** ** The Kafka service on concrete brokers *)

(** A broker that comes up at instant 3, and one that never does. *)
Lemma wait_for_broker_spec_witness :
  kafkaservice.wait_for_broker (H := demo.kafka_up_from 3) 10 demo.idle
  = Some (Ret tt, set_now 3 demo.idle)
  ∧ kafkaservice.wait_for_broker (H := demo.kafka_down) 1000 demo.idle = None.
Proof.
  split.
  - apply (proj1 (proj2 (wait_for_broker_spec (H := demo.kafka_up_from 3) demo.idle))
             3%nat 10%nat).
    + reflexivity.
    + intros i Hi. exists (KafkaError "NoBrokersAvailable").
      split; [|reflexivity].
      cbn [KafkaConsumer_init demo.kafka_up_from demo.idle demo.world_at w_now].
      destruct (Z.ltb_spec (0 + Z.of_nat i) 3); [reflexivity|lia].
    + lia.
  - apply (proj2 (proj2 (proj2 (wait_for_broker_spec (H := demo.kafka_down) demo.idle)))).
    intros i. by exists (KafkaError "NoBrokersAvailable").
Defined.

Example wait_for_broker_runs :
  kafkaservice.wait_for_broker (H := demo.kafka_up_from 3) 3 demo.idle = None
  ∧ kafkaservice.wait_for_broker (H := demo.kafka_up_from 3) 4 demo.idle
    = Some (Ret tt, set_now 3 demo.idle).
Proof. split; vm_compute; reflexivity. Qed.

(** A handler that raises a [KafkaError] on the second of three records. *)
Lemma consumer_stops_at_handler_failure_witness :
  kafkaservice.consumer_subscribed (H := demo.kafka_up) "email.validation"
    (demo.handler_raising (KafkaError "CommitFailedError"))
    ([demo.record_with "a"] ++ demo.record_with "bad" :: [demo.record_with "c"])
    demo.idle
  = (Ret kafkaservice.Returned,
     set_stdout ["handled a"; failure_line (KafkaError "CommitFailedError")] demo.idle).
Proof.
  apply (consumer_stops_at_handler_failure (H := demo.kafka_up) "email.validation"
           (demo.handler_raising (KafkaError "CommitFailedError"))
           [demo.record_with "a"] [demo.record_with "c"] (demo.record_with "bad")
           "bad" (VStr "{}") (KafkaError "CommitFailedError")
           demo.idle
           (set_stdout ["handled a"] demo.idle)
           (set_stdout ["handled a"] demo.idle));
    reflexivity.
Defined.

(** C5 fails as stated: a handler that raises [ValueError] on the first
    record takes the subscriber down with it, and one that raises a
    [KafkaError] makes it return; either way the record that follows is
    never handled. *)
Lemma consumer_does_not_continue :
  kafkaservice.consumer_subscribed (H := demo.kafka_up) "email.validation"
    (demo.handler_raising (ValueError "boom"))
    [demo.record_with "bad"; demo.record_with "good"] demo.idle
  = (Raise (ValueError "boom"), demo.idle)
  ∧ kafkaservice.consumer_subscribed (H := demo.kafka_up) "email.validation"
      (demo.handler_raising (KafkaError "boom"))
      [demo.record_with "bad"; demo.record_with "good"] demo.idle
    = (Ret kafkaservice.Returned,
       set_stdout ["Erro ao enviar a mensagem: boom"] demo.idle)
  ∧ kafkaservice.consumer_subscribed (H := demo.kafka_up) "email.validation"
      (demo.handler_raising (ValueError "boom"))
      [demo.record_with "fine"; demo.record_with "good"] demo.idle
    = (Ret kafkaservice.Waiting, set_stdout ["handled fine"; "handled good"] demo.idle).
Proof. repeat split; vm_compute; reflexivity. Qed.

(** A [send] that times out: caught, printed, returned. *)
Lemma producer_catches_KafkaError_witness :
  kafkaservice.producer (H := demo.kafka_send_times_out)
    (VStr "requests.log") (VStr "gateway") {[ "status" := VInt 200 ]} demo.idle
  = (Ret tt, set_stdout [failure_line (KafkaError "KafkaTimeoutError")] demo.idle).
Proof.
  destruct (producer_catches_KafkaError (H := demo.kafka_send_times_out)
              (VStr "requests.log") "gateway" {[ "status" := VInt 200 ]} demo.idle)
    as [(_ & Hs & _)|(e & _ & Hor & ->)].
  - intros e. discriminate.
  - intros e. intros [= <-]. reflexivity.
  - intros e. discriminate.
  - intros e. discriminate.
  - discriminate Hs.
  - destruct Hor as [Hr|[Hr|[Hr|Hr]]]; try discriminate Hr.
    injection Hr as <-. reflexivity.
Defined.

(** C3 fails as stated: the serializer's [TypeError] is no [KafkaError];
    it leaves [producer] uncaught, nothing is printed, and the call does not
    return normally.  The same holds for a key that is no [str]. *)
Lemma producer_lets_TypeError_escape :
  kafkaservice.producer (H := demo.kafka_serializer_fails)
    (VStr "requests.log") (VStr "gateway") {[ "status" := VInt 200 ]} demo.idle
  = (Raise (TypeError "Object of type datetime is not JSON serializable"), demo.idle)
  ∧ (¬ ∃ w', kafkaservice.producer (H := demo.kafka_serializer_fails)
               (VStr "requests.log") (VStr "gateway") {[ "status" := VInt 200 ]}
               demo.idle = (Ret tt, w'))
  ∧ kafkaservice.producer (H := demo.kafka_up)
      (VStr "email.recovery") (VObj "UUID('6f1c')") {[ "email" := VStr "a@b.c" ]}
      demo.idle
    = (Raise (AttributeError "object has no attribute 'encode'"), demo.idle).
Proof.
  split; [vm_compute; reflexivity|]. split; [|vm_compute; reflexivity].
  intros [w' Hw]. vm_compute in Hw. discriminate Hw.
Qed.

(** ** The controllers *)

Section controller_facts.
Context `{Platform}.
Import token_provider usercontroller.

(** Allocating a dict and issuing a token touch nothing but the heap. *)
Lemma new_dict_frame (d : dict) (w : world) (o : outcome loc) (w' : world) :
  new_dict d w = (o, w') → ∃ h, w' = set_heap h w.
Proof. unfold new_dict. intros [= <- <-]. eauto. Qed.

Lemma create_token_frame (payload : loc) (w : world)
    (o : outcome (response + string)) (w' : world) :
  create_token payload w = (o, w') → ∃ h, w' = set_heap h w.
Proof.
  unfold create_token, bind, clock, dict_setitem, config_env, deref, lift, ret, raise.
  destruct w as [r now draws heap cache out log threads]. cbn.
  repeat (case_match; simplify_eq/=); intros; simplify_eq/=; eauto.
Qed.

Ltac py_unfold :=
  unfold ResetPasswordResource_get, ValidateEmailResource_get, LogoutResource_get,
    ForgotPasswordResource_post, SendEmailValidationResource_post,
    request_get_json, validate_schema, Thread_start, verify_token,
    internal_server_error, verified_getitem, verify_token_email,
    jwt_decode_configured, config_env, headers_getitem, headers_get, getitem,
    try_except, bind, cache_get, cache_set, Logger_dispatch, modify, clock, lift,
    get_world, ret, raise in *.

Ltac py_frame :=
  repeat match goal with
    | E : new_dict _ _ = (_, _) |- _ => apply new_dict_frame in E as [? ->]
    | E : create_token _ _ = (_, _) |- _ => apply create_token_frame in E as [? ->]
    end.

Ltac py_cases :=
  py_unfold;
  repeat (case_match; simplify_eq/=; py_frame); intros; simplify_eq/=; eauto;
  try (split; [eauto|intros; simplify_eq]).

(** The cache after [LogoutResource.get]: as it was, or with the entry of
    the presented token, stored without a [timeout]. *)
Lemma LogoutResource_get_cache (w : world) (resp : outcome response) (w' : world) :
  LogoutResource_get w = (resp, w') →
  (w_cache w' = w_cache w
   ∨ ∃ h, headers (w_request w) !! "Authorization" = Some h
       ∧ w_cache w' = <[blacklist_key (bearer_token h) :=
                          CacheEntry (bearer_token h) None]> (w_cache w))
  ∧ (resp = Ret (BMessage LOGOUT_SUCCESSFULLY, 200) →
     ∃ h, headers (w_request w) !! "Authorization" = Some h
       ∧ w_cache w' = <[blacklist_key (bearer_token h) :=
                          CacheEntry (bearer_token h) None]> (w_cache w)).
Proof.
  py_cases.
  all: try (right; eexists; split; reflexivity).
  all: eexists; split; reflexivity.
Qed.

(** The cache after [ResetPasswordResource.get]: as it was, or with the
    entry of the token, stored for seven days. *)
Lemma ResetPasswordResource_get_cache
    (token : string) (w : world) (resp : outcome response) (w' : world) :
  ResetPasswordResource_get token w = (resp, w') →
  (w_cache w' = w_cache w
   ∨ w_cache w' = <[blacklist_key token := CacheEntry token (Some 604800)]> (w_cache w))
  ∧ (resp = Ret (BMessage USER_VALIDATED_SUCCESSFULLY, 200) →
     w_cache w' = <[blacklist_key token := CacheEntry token (Some 604800)]> (w_cache w)).
Proof. py_cases. Qed.

Lemma ValidateEmailResource_get_cache
    (token : string) (w : world) (resp : outcome response) (w' : world) :
  ValidateEmailResource_get token w = (resp, w') →
  (w_cache w' = w_cache w
   ∨ w_cache w' = <[blacklist_key token := CacheEntry token (Some 604800)]> (w_cache w))
  ∧ (resp = Ret (BMessage USER_VALIDATED_SUCCESSFULLY, 200) →
     w_cache w' = <[blacklist_key token := CacheEntry token (Some 604800)]> (w_cache w)).
Proof. py_cases. Qed.

(** The threads after the two handlers that send an action e-mail: none
    started, or one, whose payload carries the value of the request's
    [X-TRANSACTION-ID] header. *)
Lemma ForgotPasswordResource_post_threads
    (w : world) (resp : outcome response) (w' : world) :
  ForgotPasswordResource_post w = (resp, w') →
  (w_threads w' = w_threads w
   ∨ ∃ th, w_threads w' = (w_threads w ++ [th])%list
       ∧ transaction_ids [th] = [Some (header_value w "X-TRANSACTION-ID")])
  ∧ (resp = Ret (BMessage EMAIL_SENT_SUCCESSFULLY, 200) →
     ∃ th, w_threads w' = (w_threads w ++ [th])%list
       ∧ transaction_ids [th] = [Some (header_value w "X-TRANSACTION-ID")]).
Proof.
  unfold transaction_ids, header_value. py_cases.
  all: try (right; eexists; split; [reflexivity|]; by simpl).
  all: eexists; split; [reflexivity|]; by simpl.
Qed.

Lemma SendEmailValidationResource_post_threads
    (w : world) (resp : outcome response) (w' : world) :
  SendEmailValidationResource_post w = (resp, w') →
  (w_threads w' = w_threads w
   ∨ ∃ th, w_threads w' = (w_threads w ++ [th])%list
       ∧ transaction_ids [th] = [Some (header_value w "X-TRANSACTION-ID")])
  ∧ (resp = Ret (BMessage EMAIL_SENT_SUCCESSFULLY, 200) →
     ∃ th, w_threads w' = (w_threads w ++ [th])%list
       ∧ transaction_ids [th] = [Some (header_value w "X-TRANSACTION-ID")]).
Proof.
  unfold transaction_ids, header_value. py_cases.
  all: try (right; eexists; split; [reflexivity|]; by simpl).
  all: eexists; split; [reflexivity|]; by simpl.
Qed.

End controller_facts.

(** ** The gateway's middleware *)

Section middleware_facts.
Context `{Platform}.
Import middlewares.

(** [add_transaction_id] attaches the correlation identifier and keeps the
    rest of the request. *)
Lemma add_transaction_id_eq (w : world) :
  ∃ draws,
    add_transaction_id w
    = (Ret tt,
       set_request (set_transaction_id (correlation_id w) (w_request w))
         (set_draws draws w)).
Proof.
  unfold add_transaction_id, correlation_id, bind, get_world, modify, uuid4.
  destruct (headers (w_request w) !! "X-TRANSACTION-ID") as [v|]; cbn.
  - destruct (truthy_str v).
    + exists (w_draws w). by destruct w.
    + by exists (S (w_draws w)).
  - by exists (S (w_draws w)).
Qed.

(** After the [before_request] functions, the request carries the
    correlation identifier and the start instant. *)
Lemma before_request_eq (w : world) :
  ∃ draws,
    before_request w
    = (Ret tt,
       set_request
         (set_start_time (w_now w)
            (set_transaction_id (correlation_id w) (w_request w)))
         (set_draws draws w)).
Proof.
  unfold before_request, bind. destruct (add_transaction_id_eq w) as [draws ->].
  exists draws. by destruct w.
Qed.

(** The text of the path parameters. *)
Lemma params_text_join (args : option (list (string * pyval))) :
  params_text args = str_join ", " (py_str ∘ snd <$> default [] args).
Proof. by destruct args as [[|item items]|]. Qed.

(** [register_request_log] on a request that is not the liveness probe and
    carries the two attributes of the [before_request] functions. *)
Lemma register_request_log_eq (resp : response) (w : world) (tid : string) (t0 : Z) :
  endpoint (w_request w) ≠ Some "health" →
  transaction_id (w_request w) = Some tid →
  start_time (w_request w) = Some t0 →
  register_request_log resp w
  = (Ret resp,
     set_threads
       (w_threads w ++
        [ProducerThread (os_getenv "TOPIC_REQUESTS_LOG") (VStr app_name)
           {[ "datetime" := VStr (str_datetime (w_now w));
              "service" := VStr app_name;
              "transaction_id" := VStr tid;
              "ip" := remote_addr (w_request w);
              "method" := VStr (method (w_request w));
              "endpoint" := VStr (default "NOT_FOUND" (url_rule (w_request w)));
              "params" := VStr (params_text (view_args (w_request w)));
              "status" := VInt (snd resp);
              "duration" := VInt (w_now w - t0) ]}])
       w).
Proof.
  intros He Ht Hs.
  unfold register_request_log, bind, get_world, clock, getattr, Thread_start,
    modify, ret.
  rewrite bool_decide_eq_false_2 by done.
  by rewrite Ht, Hs.
Qed.

(** C8.  The audit event of a request.  For the liveness probe the
    middleware returns the response and does nothing else.  For every other
    request (carrying the attributes the [before_request] functions attach),
    it returns the response unchanged and starts exactly one thread, on
    [KafkaService().producer] with the audit topic, the service name as key
    and a payload whose fields are exactly datetime, service,
    transaction_id, ip, method, endpoint, params, status and duration;
    endpoint is the template of the matched route (NOT_FOUND when no route
    matched) and params is the text of the path parameters joined by a comma
    and a blank.  The thread is only started: the response does not wait
    for, or depend on, the publish. *)
Theorem audit_event_per_request (resp : response) (w : world) :
  (endpoint (w_request w) = Some "health" →
   register_request_log resp w = (Ret resp, w))
  ∧ (endpoint (w_request w) ≠ Some "health" →
     ∀ tid t0,
       transaction_id (w_request w) = Some tid →
       start_time (w_request w) = Some t0 →
       ∃ payload,
         register_request_log resp w
         = (Ret resp,
            set_threads
              (w_threads w ++
               [ProducerThread (os_getenv "TOPIC_REQUESTS_LOG") (VStr app_name) payload])
              w)
         ∧ dom payload = audit_fields
         ∧ payload !! "datetime" = Some (VStr (str_datetime (w_now w)))
         ∧ payload !! "service" = Some (VStr app_name)
         ∧ payload !! "transaction_id" = Some (VStr tid)
         ∧ payload !! "ip" = Some (remote_addr (w_request w))
         ∧ payload !! "method" = Some (VStr (method (w_request w)))
         ∧ payload !! "endpoint"
           = Some (VStr (default "NOT_FOUND" (url_rule (w_request w))))
         ∧ payload !! "params"
           = Some (VStr (str_join ", "
                           (py_str ∘ snd <$> default [] (view_args (w_request w)))))
         ∧ payload !! "status" = Some (VInt (snd resp))
         ∧ payload !! "duration" = Some (VInt (w_now w - t0))).
Proof.
  split.
  - intros He. unfold register_request_log, bind, get_world, ret.
    by rewrite bool_decide_eq_true_2.
  - intros He tid t0 Ht Hs. eexists. split.
    { by apply register_request_log_eq. }
    rewrite <- params_text_join.
    repeat split; reflexivity.
Qed.

End middleware_facts.

(** ** Revocation entries and correlation identifiers *)

Section lifecycle.
Context `{Platform}.
Import token_provider usercontroller middlewares.

(** C4, as the code has it.  Each of the three revoking handlers leaves the
    cache as it was or writes one entry, under the key BLACKLIST_TOKEN_
    followed by the token and with the token as value, and it has written
    the entry whenever it answers with its success response.  Logout stores
    the entry of the presented token without a timeout argument; the
    handlers of password reset and e-mail validation store the entry of
    their token with a timeout of 604800 seconds, seven days. *)
Theorem revocation_entries (token : string) (w : world) :
  (∀ resp w', LogoutResource_get w = (resp, w') →
     (w_cache w' = w_cache w
      ∨ ∃ h, headers (w_request w) !! "Authorization" = Some h
          ∧ w_cache w' = <["BLACKLIST_TOKEN_" +:+ bearer_token h :=
                             CacheEntry (bearer_token h) None]> (w_cache w))
     ∧ (resp = Ret (BMessage LOGOUT_SUCCESSFULLY, 200) →
        ∃ h, headers (w_request w) !! "Authorization" = Some h
          ∧ w_cache w' = <["BLACKLIST_TOKEN_" +:+ bearer_token h :=
                             CacheEntry (bearer_token h) None]> (w_cache w)))
  ∧ (∀ resp w', ResetPasswordResource_get token w = (resp, w') →
       (w_cache w' = w_cache w
        ∨ w_cache w' = <["BLACKLIST_TOKEN_" +:+ token :=
                           CacheEntry token (Some 604800)]> (w_cache w))
       ∧ (resp = Ret (BMessage USER_VALIDATED_SUCCESSFULLY, 200) →
          w_cache w' = <["BLACKLIST_TOKEN_" +:+ token :=
                           CacheEntry token (Some 604800)]> (w_cache w)))
  ∧ (∀ resp w', ValidateEmailResource_get token w = (resp, w') →
       (w_cache w' = w_cache w
        ∨ w_cache w' = <["BLACKLIST_TOKEN_" +:+ token :=
                           CacheEntry token (Some 604800)]> (w_cache w))
       ∧ (resp = Ret (BMessage USER_VALIDATED_SUCCESSFULLY, 200) →
          w_cache w' = <["BLACKLIST_TOKEN_" +:+ token :=
                           CacheEntry token (Some 604800)]> (w_cache w))).
Proof.
  split; [|split]; intros resp w'.
  - apply LogoutResource_get_cache.
  - apply ResetPasswordResource_get_cache.
  - apply ValidateEmailResource_get_cache.
Qed.

(** C6, as the code has it.  At the gateway, [add_transaction_id] attaches
    to the request its correlation identifier: the value of the
    X-TRANSACTION-ID header when the header is present and not empty, a
    newly drawn uuid4 otherwise.  The audit event of a request whose context
    is the one the [before_request] functions left carries that identifier.
    In the auth service, an event started by the forgot-password or the
    send-validation handler carries the value of the X-TRANSACTION-ID header
    of the request at hand, [None] when there is no such header. *)
Theorem transaction_id_propagation (w : world) :
  (fst (add_transaction_id w) = Ret tt
   ∧ transaction_id (w_request (snd (add_transaction_id w))) = Some (correlation_id w))
  ∧ (∀ v, headers (w_request w) !! "X-TRANSACTION-ID" = Some v → v ≠ "" →
       correlation_id w = v)
  ∧ (headers (w_request w) !! "X-TRANSACTION-ID" = None →
       correlation_id w = uuid4_draw (w_draws w))
  ∧ (∀ resp w2,
       w_request w2 = w_request (snd (before_request w)) →
       endpoint (w_request w) ≠ Some "health" →
       ∃ th, w_threads (snd (register_request_log resp w2)) = (w_threads w2 ++ [th])%list
         ∧ transaction_ids [th] = [Some (VStr (correlation_id w))])
  ∧ (∀ resp w', ForgotPasswordResource_post w = (resp, w') →
       (w_threads w' = w_threads w
        ∨ ∃ th, w_threads w' = (w_threads w ++ [th])%list
            ∧ transaction_ids [th] = [Some (header_value w "X-TRANSACTION-ID")])
       ∧ (resp = Ret (BMessage EMAIL_SENT_SUCCESSFULLY, 200) →
          ∃ th, w_threads w' = (w_threads w ++ [th])%list
            ∧ transaction_ids [th] = [Some (header_value w "X-TRANSACTION-ID")]))
  ∧ (∀ resp w', SendEmailValidationResource_post w = (resp, w') →
       (w_threads w' = w_threads w
        ∨ ∃ th, w_threads w' = (w_threads w ++ [th])%list
            ∧ transaction_ids [th] = [Some (header_value w "X-TRANSACTION-ID")])
       ∧ (resp = Ret (BMessage EMAIL_SENT_SUCCESSFULLY, 200) →
          ∃ th, w_threads w' = (w_threads w ++ [th])%list
            ∧ transaction_ids [th] = [Some (header_value w "X-TRANSACTION-ID")])).
Proof.
  split; [|split; [|split; [|split; [|split]]]].
  - destruct (add_transaction_id_eq w) as [draws ->]. by split.
  - intros v Hv Hne. unfold correlation_id. rewrite Hv.
    by rewrite (proj2 (truthy_str_true v) Hne).
  - intros Hv. unfold correlation_id. by rewrite Hv.
  - intros resp w2 Hr He.
    destruct (before_request_eq w) as [draws Eb]. rewrite Eb in Hr. cbn in Hr.
    eexists. split.
    + rewrite (register_request_log_eq resp w2 (correlation_id w) (w_now w));
        [reflexivity|by rewrite Hr..].
    + reflexivity.
  - intros resp w'. apply ForgotPasswordResource_post_threads.
  - intros resp w'. apply SendEmailValidationResource_post_threads.
Qed.

End lifecycle.

(** ** Handlers and middleware on concrete requests *)

(** A routed request to [/users/<uuid>/], answered 200 at instant 100. *)
Lemma audit_event_per_request_witness :
  let w := demo.world_at 100 (demo.routed_request ∅) ∅ in
  ∃ payload,
    middlewares.register_request_log (H := demo.platform) (BOther "ok", 200) w
    = (Ret (BOther "ok", 200),
       set_threads [ProducerThread (VStr "requests.log") (VStr "gateway") payload] w)
    ∧ dom payload = audit_fields
    ∧ payload !! "transaction_id" = Some (VStr "tx-1")
    ∧ payload !! "endpoint" = Some (VStr "/users/<uuid>/")
    ∧ payload !! "params" = Some (VStr "u1")
    ∧ payload !! "status" = Some (VInt 200)
    ∧ payload !! "duration" = Some (VInt 10).
Proof.
  intros w.
  destruct (proj2 (audit_event_per_request (H := demo.platform) (BOther "ok", 200) w))
    with (tid := "tx-1") (t0 := 90)
    as (payload & Heq & Hdom & _ & _ & Htid & _ & _ & Hend & Hpar & Hst & Hdur).
  - discriminate.
  - reflexivity.
  - reflexivity.
  - exists payload. repeat split; assumption.
Defined.

Example audit_skips_health :
  let r := Request ∅ (Some "health") (Some "/health/") None (VStr "10.0.0.7") "GET"
             (Raise UnsupportedMediaType) (Some "tx-2") (Some 90) in
  middlewares.register_request_log (H := demo.platform) (BOther "OK", 200)
    (demo.world_at 100 r ∅)
  = (Ret (BOther "OK", 200), demo.world_at 100 r ∅).
Proof. vm_compute. reflexivity. Qed.

Example audit_unmatched_route :
  let r := Request ∅ None None None (VStr "10.0.0.7") "GET"
             (Raise UnsupportedMediaType) (Some "tx-3") (Some 90) in
  (λ t, (th_value t !! "endpoint", th_value t !! "params"))
    <$> w_threads (snd (middlewares.register_request_log (H := demo.platform)
                          (BOther "Not Found", 404) (demo.world_at 100 r ∅)))
  = [(Some (VStr "NOT_FOUND"), Some (VStr ""))].
Proof. vm_compute. reflexivity. Qed.

(** A password-reset token of alice, used at instant 100. *)
Lemma revocation_entries_witness :
  let token := demo.token_of {[ "email" := VStr "alice@example.com"; "exp" := VInt 5000 ]} in
  let w := demo.world_at 100 (demo.request_with ∅) ∅ in
  fst (usercontroller.ResetPasswordResource_get (H := demo.platform) token w)
  = Ret (BMessage USER_VALIDATED_SUCCESSFULLY, 200)
  ∧ w_cache (snd (usercontroller.ResetPasswordResource_get (H := demo.platform) token w))
    = {[ "BLACKLIST_TOKEN_" +:+ token := CacheEntry token (Some 604800) ]}.
Proof.
  intros token w.
  assert (fst (usercontroller.ResetPasswordResource_get (H := demo.platform) token w)
          = Ret (BMessage USER_VALIDATED_SUCCESSFULLY, 200)) as Hr
    by (vm_compute; reflexivity).
  split; [exact Hr|].
  destruct (usercontroller.ResetPasswordResource_get (H := demo.platform) token w)
    as [resp w'] eqn:E.
  apply (proj2 (proj1 (proj2 (revocation_entries (H := demo.platform) token w))
                  resp w' E)).
  exact Hr.
Defined.

Example validate_email_revokes_for_seven_days :
  let token := demo.token_of {[ "email" := VStr "bob@example.com"; "exp" := VInt 5000 ]} in
  let w := demo.world_at 100 (demo.request_with ∅) ∅ in
  fst (usercontroller.ValidateEmailResource_get (H := demo.platform) token w)
  = Ret (BMessage USER_VALIDATED_SUCCESSFULLY, 200)
  ∧ ce_timeout <$> w_cache (snd (usercontroller.ValidateEmailResource_get
                                   (H := demo.platform) token w))
                   !! ("BLACKLIST_TOKEN_" +:+ token)
    = Some (Some (7 * 86400)).
Proof. split; vm_compute; reflexivity. Qed.

(** C4 fails as stated: a session token that expires at instant 5000 is
    revoked by logout at instant 100; its remaining validity is 4900
    seconds, and the entry is stored without any timeout of its own. *)
Lemma logout_entry_has_no_ttl :
  let live := demo.token_of (demo.claims_of "u1" false 5000) in
  let w := demo.world_at 100
             (demo.request_with {[ "Authorization" := "Bearer " +:+ live ]}) ∅ in
  fst (usercontroller.LogoutResource_get (H := demo.platform) w)
  = Ret (BMessage LOGOUT_SUCCESSFULLY, 200)
  ∧ w_cache (snd (usercontroller.LogoutResource_get (H := demo.platform) w))
      !! ("BLACKLIST_TOKEN_" +:+ live)
    = Some (CacheEntry live None)
  ∧ ce_timeout (CacheEntry live None) ≠ Some (5000 - 100).
Proof. repeat split; [vm_compute; reflexivity..|discriminate]. Qed.

(** A request with the header at the gateway, and its audit event. *)
Lemma transaction_id_propagation_witness :
  let w := demo.world_at 100
             (demo.routed_request {[ "X-TRANSACTION-ID" := "abc-123" ]}) ∅ in
  correlation_id (H := demo.platform) w = "abc-123"
  ∧ transaction_id
      (w_request (snd (middlewares.add_transaction_id (H := demo.platform) w)))
    = Some "abc-123"
  ∧ ∃ th,
      w_threads (snd (middlewares.register_request_log (H := demo.platform)
                        (BOther "ok", 200)
                        (snd (middlewares.before_request (H := demo.platform) w))))
      = [th]
      ∧ transaction_ids [th] = [Some (VStr "abc-123")].
Proof.
  intros w.
  pose proof (transaction_id_propagation (H := demo.platform) w)
    as ((_ & Hadd) & Hhdr & _ & Haudit & _).
  assert (correlation_id (H := demo.platform) w = "abc-123") as Hid.
  { apply Hhdr; [reflexivity|discriminate]. }
  split; [exact Hid|]. split; [by rewrite Hadd, Hid|].
  destruct (Haudit (BOther "ok", 200)
              (snd (middlewares.before_request (H := demo.platform) w)))
    as (th & Hth & Hids); [reflexivity|discriminate|].
  exists th. by rewrite Hth, Hids, Hid.
Defined.

(** C6 fails as stated.  A forgot-password request that arrives without the
    header starts its notification event with [transaction_id] [None], not
    with a generated identifier; and at the gateway a header that is present
    but empty is not used: an identifier is drawn instead. *)
Lemma notification_event_without_generated_id :
  let w := demo.world_at 100
             (demo.json_request ∅ {[ "email" := VStr "alice@example.com" ]}) ∅ in
  let w0 := demo.world_at 100 (demo.routed_request {[ "X-TRANSACTION-ID" := "" ]}) ∅ in
  fst (usercontroller.ForgotPasswordResource_post (H := demo.platform) w)
  = Ret (BMessage EMAIL_SENT_SUCCESSFULLY, 200)
  ∧ transaction_ids
      (w_threads (snd (usercontroller.ForgotPasswordResource_post (H := demo.platform) w)))
    = [Some VNone]
  ∧ headers (w_request w0) !! "X-TRANSACTION-ID" = Some ""
  ∧ transaction_id
      (w_request (snd (middlewares.add_transaction_id (H := demo.platform) w0)))
    = Some "uuid-0".
Proof. repeat split; vm_compute; reflexivity. Qed.

(** * Further properties of the code *)

(** ** The token provider: configuration, flags and prefixes *)

Lemma str_replace_Bearer_prefix (h : string) :
  str_replace "Bearer " "" ("Bearer " +:+ h) = str_replace "Bearer " "" h.
Proof. unfold str_replace. by destruct h. Qed.

Section token_provider_edges.
Context `{Platform}.
Import token_provider.

(** Without its configuration the decoder raises before PyJWT is called. *)
Lemma jwt_decode_configured_unconfigured (token : string) (w : world) :
  environ !! "SECRET_KEY" = None ∨ environ !! "ALGORITHM" = None →
  ∃ name, jwt_decode_configured token w = (Raise (UndefinedValueError name), w).
Proof.
  unfold jwt_decode_configured, bind, config_env, raise, ret.
  intros [E|E].
  - rewrite E. eauto.
  - destruct (environ !! "SECRET_KEY"); rewrite ?E; eauto.
Qed.

(** X1.  Without SECRET_KEY or ALGORITHM in the configuration, [verify_token]
    answers every request that carries a well-formed header and a token that
    is not blacklisted with the invalid-token rejection, status 401: the
    configuration error is swallowed by [except Exception], the handler is
    not run and the world is left as it was. *)
Theorem verify_token_without_configuration
    (f : dict → py response) (w : world) (h : string) :
  environ !! "SECRET_KEY" = None ∨ environ !! "ALGORITHM" = None →
  headers (w_request w) !! "Authorization" = Some h →
  String.prefix "Bearer " h = true →
  blacklisted w (bearer_token h) = false →
  verify_token f w = (Ret (BMessage TOKEN_IS_INVALID, 401), w).
Proof.
  intros Hcfg Eh Hp Hb.
  destruct (jwt_decode_configured_unconfigured (bearer_token h) w Hcfg) as [name Hd].
  eapply verify_token_decode_fails; eauto. by rewrite Hd.
Qed.

(** X2.  [verify_token_email] turns an [InvalidTokenError] of the decoder
    into the pair of the invalid-token message and 401, and lets an exception
    of any other class through to its caller; in both cases the world is left
    as it was.  In particular it raises [UndefinedValueError] when
    SECRET_KEY or ALGORITHM is not configured. *)
Theorem verify_token_email_catches_InvalidTokenError_only
    (token : string) (w : world) :
  (∀ e, fst (jwt_decode_configured (bearer_token token) w) = Raise e →
        verify_token_email token w
        = if is_InvalidTokenError e
          then (Ret (inl (BMessage TOKEN_IS_INVALID, 401)), w)
          else (Raise e, w))
  ∧ (environ !! "SECRET_KEY" = None ∨ environ !! "ALGORITHM" = None →
     ∃ name, verify_token_email token w = (Raise (UndefinedValueError name), w)).
Proof.
  assert (∀ e, fst (jwt_decode_configured (bearer_token token) w) = Raise e →
               verify_token_email token w
               = if is_InvalidTokenError e
                 then (Ret (inl (BMessage TOKEN_IS_INVALID, 401)), w)
                 else (Raise e, w)) as Hgen.
  { intros e He. unfold verify_token_email, try_except, bind, bearer_token in *.
    pose proof (jwt_decode_configured_world (str_replace "Bearer " "" token) w) as Hw.
    destruct (jwt_decode_configured _ w) as [[claims|e'] w']; simpl in *; [done|].
    simplify_eq. by destruct (is_InvalidTokenError e). }
  split; [exact Hgen|].
  intros Hcfg.
  destruct (jwt_decode_configured_unconfigured (bearer_token token) w Hcfg) as [name Hd].
  exists name. rewrite (Hgen (UndefinedValueError name)); [done|]. by rewrite Hd.
Qed.

(** X3.  An administrator route whose decoded claims carry no [is_admin]
    key raises [KeyError]: [admin_required] subscripts the claims outside any
    [try], and [verify_token] calls the wrapped function outside its own.
    The handler is not run and the world is left as it was. *)
Theorem admin_route_raises_without_flag
    (f : dict → py response) (w : world) (h : string) (claims : dict) :
  headers (w_request w) !! "Authorization" = Some h →
  String.prefix "Bearer " h = true →
  blacklisted w (bearer_token h) = false →
  fst (jwt_decode_configured (bearer_token h) w) = Ret claims →
  claims !! "is_admin" = None →
  guarded true f w = (Raise (KeyError "is_admin"), w).
Proof.
  intros Eh Hp Hb Hd Hflag. unfold guarded.
  rewrite (verify_token_decoded _ w h claims Eh Hp Hb Hd).
  unfold admin_required, bind, getitem, raise. by rewrite Hflag.
Qed.



End token_provider_edges.

(** ** The handlers: what they always and never do *)

Section handler_outcomes.
Context `{Platform}.
Import token_provider usercontroller.

Ltac handler_unfold :=
  unfold ResetPasswordResource_get, ValidateEmailResource_get, LogoutResource_get,
    ForgotPasswordResource_post, SendEmailValidationResource_post,
    request_get_json, validate_schema, Thread_start, verify_token,
    internal_server_error, verified_getitem, verify_token_email,
    jwt_decode_configured, config_env, headers_getitem, headers_get, getitem,
    try_except, bind, cache_get, cache_set, Logger_dispatch, modify, clock, lift,
    get_world, ret, raise in *.

Ltac handler_frame :=
  repeat match goal with
    | E : new_dict _ _ = (_, _) |- _ => apply new_dict_frame in E as [? ->]
    | E : create_token _ _ = (_, _) |- _ => apply create_token_frame in E as [? ->]
    end.

Ltac handler_cases :=
  handler_unfold;
  repeat (case_match; simplify_eq/=; handler_frame); intros; simplify_eq/=.

(** [LogoutResource.get] returns a response, and writes its entry only for a
    header whose token is not blacklisted and decodes. *)
Lemma LogoutResource_get_outcome (w : world) (resp : outcome response) (w' : world) :
  LogoutResource_get w = (resp, w') →
  (∃ r, resp = Ret r)
  ∧ ((w_cache w' = w_cache w ∧ resp ≠ Ret (BMessage LOGOUT_SUCCESSFULLY, 200))
     ∨ ∃ h claims,
         headers (w_request w) !! "Authorization" = Some h
         ∧ blacklisted w (bearer_token h) = false
         ∧ fst (jwt_decode_configured (bearer_token h) w) = Ret claims
         ∧ w_cache w' = <[blacklist_key (bearer_token h) :=
                            CacheEntry (bearer_token h) None]> (w_cache w)).
Proof.
  unfold blacklisted, blacklist_key, bearer_token.
  handler_cases; (split; [eauto|]); try (left; split; [done|congruence]).
  all: right; do 2 eexists; repeat split; eauto.
Qed.

(** The two handlers of single-use tokens return a response, and write their
    entry only for a token that is not blacklisted. *)
Lemma ResetPasswordResource_get_outcome
    (token : string) (w : world) (resp : outcome response) (w' : world) :
  ResetPasswordResource_get token w = (resp, w') →
  (∃ r, resp = Ret r)
  ∧ ((w_cache w' = w_cache w
      ∧ resp ≠ Ret (BMessage USER_VALIDATED_SUCCESSFULLY, 200))
     ∨ (blacklisted w token = false
        ∧ w_cache w' = <[blacklist_key token := CacheEntry token (Some 604800)]>
                         (w_cache w))).
Proof.
  unfold blacklisted, blacklist_key.
  handler_cases; (split; [eauto|]); try (left; split; [done|congruence]).
  all: right; by split.
Qed.

Lemma ValidateEmailResource_get_outcome
    (token : string) (w : world) (resp : outcome response) (w' : world) :
  ValidateEmailResource_get token w = (resp, w') →
  (∃ r, resp = Ret r)
  ∧ ((w_cache w' = w_cache w
      ∧ resp ≠ Ret (BMessage USER_VALIDATED_SUCCESSFULLY, 200))
     ∨ (blacklisted w token = false
        ∧ w_cache w' = <[blacklist_key token := CacheEntry token (Some 604800)]>
                         (w_cache w))).
Proof.
  unfold blacklisted, blacklist_key.
  handler_cases; (split; [eauto|]); try (left; split; [done|congruence]).
  all: right; by split.
Qed.

(** A blacklisted token is turned away at once. *)
Lemma ResetPasswordResource_get_blacklisted (token : string) (w : world) :
  blacklisted w token = true →
  fst (ResetPasswordResource_get token w) = Ret (BMessage TOKEN_IS_INVALID, 401)
  ∧ w_cache (snd (ResetPasswordResource_get token w)) = w_cache w.
Proof.
  unfold blacklisted, blacklist_key. intros Hb.
  unfold ResetPasswordResource_get, try_except, bind, cache_get, Logger_dispatch,
    modify, ret.
  by rewrite Hb.
Qed.

Lemma ValidateEmailResource_get_blacklisted (token : string) (w : world) :
  blacklisted w token = true →
  fst (ValidateEmailResource_get token w) = Ret (BMessage TOKEN_IS_INVALID, 401)
  ∧ w_cache (snd (ValidateEmailResource_get token w)) = w_cache w.
Proof.
  unfold blacklisted, blacklist_key. intros Hb.
  unfold ValidateEmailResource_get, try_except, bind, cache_get, Logger_dispatch,
    modify, ret.
  by rewrite Hb.
Qed.

(** The entry a handler has written makes its token blacklisted. *)
Lemma blacklisted_after_insert (w : world) (token : string) (timeout : option Z)
    (c : gmap string cache_entry) :
  token ≠ "" →
  w_cache w = <[blacklist_key token := CacheEntry token timeout]> c →
  blacklisted w token = true.
Proof.
  intros Hne Hc. unfold blacklisted. rewrite Hc, lookup_insert_eq.
  by apply truthy_str_true.
Qed.

(** A token that decodes is not the empty string, PyJWT refusing that. *)
Lemma decoded_token_not_empty (token : string) (w : world) (claims : dict) :
  jwt_rejects_empty →
  fst (jwt_decode_configured token w) = Ret claims →
  token ≠ "".
Proof.
  intros Hrej Hd ->.
  unfold jwt_decode_configured, bind, config_env, clock, lift, raise, ret in Hd.
  destruct (environ !! "SECRET_KEY") as [secret|]; [|done].
  destruct (environ !! "ALGORITHM") as [alg|]; [|done].
  destruct (Hrej secret [alg] (w_now w)) as [e He]. simpl in Hd. by rewrite He in Hd.
Qed.

(** X5.  Logout takes effect.  Once [LogoutResource.get] has answered with
    its success message, the guard rejects the same Authorization header
    with the invalid-token message and 401 in every world whose cache is
    the one logout left, whatever the handler behind it. *)
Theorem logout_then_rejected
    (f : dict → py response) (w w' later : world) :
  jwt_rejects_empty →
  LogoutResource_get w = (Ret (BMessage LOGOUT_SUCCESSFULLY, 200), w') →
  headers (w_request later) !! "Authorization" = headers (w_request w) !! "Authorization" →
  w_cache later = w_cache w' →
  verify_token f later = (Ret (BMessage TOKEN_IS_INVALID, 401), later).
Proof.
  intros Hrej Hout Hh Hc.
  destruct (LogoutResource_get_outcome w _ w' Hout)
    as [_ [[_ Hne]|(h' & claims & Eh & Hb & Hd & Hw)]]; [done|].
  assert (String.prefix "Bearer " h' = true) as Hp.
  { destruct (String.prefix "Bearer " h') eqn:Hp; [done|].
    unfold LogoutResource_get in Hout.
    rewrite (verify_token_bad_format _ w h' Eh Hp) in Hout. by simplify_eq. }
  apply (verify_token_blacklisted f later h'); [congruence|done|].
  eapply blacklisted_after_insert; [|by rewrite Hc].
  by eapply decoded_token_not_empty.
Qed.

(** X6.  An action token works once.  Once the password-reset handler, or
    the e-mail validation handler, has answered a non-empty token with its
    success message, the same handler answers that token with the
    invalid-token message and 401, and leaves the cache alone, in every
    world whose cache is the one the first call left. *)
Theorem action_token_single_use (token : string) (w w' later : world) :
  token ≠ "" →
  w_cache later = w_cache w' →
  (ResetPasswordResource_get token w
   = (Ret (BMessage USER_VALIDATED_SUCCESSFULLY, 200), w') →
   fst (ResetPasswordResource_get token later) = Ret (BMessage TOKEN_IS_INVALID, 401)
   ∧ w_cache (snd (ResetPasswordResource_get token later)) = w_cache later)
  ∧ (ValidateEmailResource_get token w
     = (Ret (BMessage USER_VALIDATED_SUCCESSFULLY, 200), w') →
     fst (ValidateEmailResource_get token later) = Ret (BMessage TOKEN_IS_INVALID, 401)
     ∧ w_cache (snd (ValidateEmailResource_get token later)) = w_cache later).
Proof.
  intros Hne Hc. split; intros Hout.
  - destruct (ResetPasswordResource_get_outcome token w _ w' Hout)
      as [_ [[_ ?]|[_ Hw]]]; [done|].
    apply ResetPasswordResource_get_blacklisted.
    eapply blacklisted_after_insert; [done|by rewrite Hc].
  - destruct (ValidateEmailResource_get_outcome token w _ w' Hout)
      as [_ [[_ ?]|[_ Hw]]]; [done|].
    apply ValidateEmailResource_get_blacklisted.
    eapply blacklisted_after_insert; [done|by rewrite Hc].
Qed.

(** A key that is not blacklisted is not held, in a cache of true values. *)
Lemma not_blacklisted_not_held (w : world) (token : string) :
  cache_values_true w →
  blacklisted w token = false →
  w_cache w !! blacklist_key token = None.
Proof.
  intros Hc Hb. unfold blacklisted in Hb. rewrite (cache_get_held w _ Hc) in Hb.
  apply bool_decide_eq_false in Hb.
  destruct (w_cache w !! blacklist_key token) eqn:E; [|done].
  destruct Hb. eauto.
Qed.

Lemma cache_values_true_insert (w w' : world) (token : string) (timeout : option Z) :
  cache_values_true w →
  token ≠ "" →
  w_cache w' = <[blacklist_key token := CacheEntry token timeout]> (w_cache w) →
  cache_values_true w'.
Proof.
  intros Hc Hne Hw key entry. rewrite Hw.
  destruct (decide (blacklist_key token = key)) as [<-|Hk].
  - rewrite lookup_insert_eq. by intros [= <-].
  - rewrite lookup_insert_ne by done. apply Hc.
Qed.

(** X7.  Revocation only grows.  In a cache whose values are all non-empty,
    the three revoking handlers keep every entry as it is (same value, same
    timeout: an entry is never removed, overwritten or refreshed) and leave a
    cache whose values are again non-empty, the tokens of the single-use
    handlers being non-empty path parameters and PyJWT refusing the empty
    token. *)
Theorem revocation_only_grows (token : string) (w : world) :
  cache_values_true w →
  jwt_rejects_empty →
  token ≠ "" →
  (∀ resp w', LogoutResource_get w = (resp, w') →
     w_cache w ⊆ w_cache w' ∧ cache_values_true w')
  ∧ (∀ resp w', ResetPasswordResource_get token w = (resp, w') →
       w_cache w ⊆ w_cache w' ∧ cache_values_true w')
  ∧ (∀ resp w', ValidateEmailResource_get token w = (resp, w') →
       w_cache w ⊆ w_cache w' ∧ cache_values_true w').
Proof.
  intros Hc Hrej Hne. split; [|split]; intros resp w' Hout.
  - destruct (LogoutResource_get_outcome w _ w' Hout)
      as [_ [[Hw _]|(h & claims & Eh & Hb & Hd & Hw)]].
    + split; [by rewrite Hw|]. intros key entry. rewrite Hw. apply Hc.
    + split.
      * rewrite Hw. apply insert_subseteq. by apply not_blacklisted_not_held.
      * eapply cache_values_true_insert; [done| |done].
        by eapply decoded_token_not_empty.
  - destruct (ResetPasswordResource_get_outcome token w _ w' Hout)
      as [_ [[Hw _]|[Hb Hw]]].
    + split; [by rewrite Hw|]. intros key entry. rewrite Hw. apply Hc.
    + split.
      * rewrite Hw. apply insert_subseteq. by apply not_blacklisted_not_held.
      * by eapply cache_values_true_insert.
  - destruct (ValidateEmailResource_get_outcome token w _ w' Hout)
      as [_ [[Hw _]|[Hb Hw]]].
    + split; [by rewrite Hw|]. intros key entry. rewrite Hw. apply Hc.
    + split.
      * rewrite Hw. apply insert_subseteq. by apply not_blacklisted_not_held.
      * by eapply cache_values_true_insert.
Qed.

(** The two handlers that send an action e-mail return a response, and start
    their thread exactly when they answer with the success message. *)
Lemma ForgotPasswordResource_post_outcome
    (w : world) (resp : outcome response) (w' : world) :
  ForgotPasswordResource_post w = (resp, w') →
  (∃ r, resp = Ret r)
  ∧ ((w_threads w' = w_threads w
      ∧ resp ≠ Ret (BMessage EMAIL_SENT_SUCCESSFULLY, 200))
     ∨ (∃ th, w_threads w' = (w_threads w ++ [th])%list)
       ∧ resp = Ret (BMessage EMAIL_SENT_SUCCESSFULLY, 200)).
Proof.
  handler_cases; (split; [eauto|]); try (left; split; [done|congruence]).
  all: right; split; [eexists|]; reflexivity.
Qed.

Lemma SendEmailValidationResource_post_outcome
    (w : world) (resp : outcome response) (w' : world) :
  SendEmailValidationResource_post w = (resp, w') →
  (∃ r, resp = Ret r)
  ∧ ((w_threads w' = w_threads w
      ∧ resp ≠ Ret (BMessage EMAIL_SENT_SUCCESSFULLY, 200))
     ∨ (∃ th, w_threads w' = (w_threads w ++ [th])%list)
       ∧ resp = Ret (BMessage EMAIL_SENT_SUCCESSFULLY, 200)).
Proof.
  handler_cases; (split; [eauto|]); try (left; split; [done|congruence]).
  all: right; split; [eexists|]; reflexivity.
Qed.

(** X8.  With a cache backend and a logger that answer, the handlers do
    not raise.  [cache.get], [cache.set] and [Logger().dispatch] are taken
    as calls that return, as the model has them.  Then, whatever the request
    and the stored entries, and whatever PyJWT, the configuration, the user
    model, the schemas and [request.get_json] return or raise, each of logout
    (under [verify_token]), password reset, e-mail validation, forgot-password
    and send-validation returns a response: every exception of those is
    raised inside a [try] whose [except] clause answers. *)
Theorem handlers_never_raise (token : string) (w : world) :
  (∃ r, fst (LogoutResource_get w) = Ret r)
  ∧ (∃ r, fst (ResetPasswordResource_get token w) = Ret r)
  ∧ (∃ r, fst (ValidateEmailResource_get token w) = Ret r)
  ∧ (∃ r, fst (ForgotPasswordResource_post w) = Ret r)
  ∧ (∃ r, fst (SendEmailValidationResource_post w) = Ret r).
Proof.
  repeat split.
  - destruct (LogoutResource_get w) as [resp w'] eqn:E.
    by destruct (LogoutResource_get_outcome w resp w' E) as [? _].
  - destruct (ResetPasswordResource_get token w) as [resp w'] eqn:E.
    by destruct (ResetPasswordResource_get_outcome token w resp w' E) as [? _].
  - destruct (ValidateEmailResource_get token w) as [resp w'] eqn:E.
    by destruct (ValidateEmailResource_get_outcome token w resp w' E) as [? _].
  - destruct (ForgotPasswordResource_post w) as [resp w'] eqn:E.
    by destruct (ForgotPasswordResource_post_outcome w resp w' E) as [? _].
  - destruct (SendEmailValidationResource_post w) as [resp w'] eqn:E.
    by destruct (SendEmailValidationResource_post_outcome w resp w' E) as [? _].
Qed.

Lemma app_singleton_neq {A} (l : list A) (x : A) : (l ++ [x])%list ≠ l.
Proof.
  intros E. apply (f_equal length) in E. rewrite length_app in E. simpl in E. lia.
Qed.

(** X9.  A notification is handed off exactly when the handler says so.
    The forgot-password handler and the send-validation handler start one
    publishing thread if they answer with EMAIL_SENT_SUCCESSFULLY and 200, and
    none otherwise: no response other than that one leaves a thread behind,
    and that one is never given without the thread. *)
Theorem notification_iff_success (w : world) :
  (∀ resp w', ForgotPasswordResource_post w = (resp, w') →
     (resp = Ret (BMessage EMAIL_SENT_SUCCESSFULLY, 200) ↔
      ∃ th, w_threads w' = (w_threads w ++ [th])%list)
     ∧ (resp ≠ Ret (BMessage EMAIL_SENT_SUCCESSFULLY, 200) →
        w_threads w' = w_threads w))
  ∧ (∀ resp w', SendEmailValidationResource_post w = (resp, w') →
       (resp = Ret (BMessage EMAIL_SENT_SUCCESSFULLY, 200) ↔
        ∃ th, w_threads w' = (w_threads w ++ [th])%list)
       ∧ (resp ≠ Ret (BMessage EMAIL_SENT_SUCCESSFULLY, 200) →
          w_threads w' = w_threads w)).
Proof.
  split; intros resp w' Hout.
  - destruct (ForgotPasswordResource_post_outcome w resp w' Hout)
      as [_ [[Ht Hr]|[[th Ht] Hr]]].
    + split; [split; [done|]|done].
      intros [th Hth]. rewrite Ht in Hth. symmetry in Hth.
      by apply app_singleton_neq in Hth.
    + split; [split; eauto|done].
  - destruct (SendEmailValidationResource_post_outcome w resp w' Hout)
      as [_ [[Ht Hr]|[[th Ht] Hr]]].
    + split; [split; [done|]|done].
      intros [th Hth]. rewrite Ht in Hth. symmetry in Hth.
      by apply app_singleton_neq in Hth.
    + split; [split; eauto|done].
Qed.

End handler_outcomes.

(** ** From the e-mail to the link and back *)

(** One step of a handler: the monad's operations, unfolded and reduced. *)
Ltac run_handler :=
  repeat (cbv beta iota zeta;
          unfold ret, raise, lift, get_world, modify, getitem,
            token_provider.config_env, usercontroller.headers_get,
            Logger_dispatch, Thread_start, cache_get, cache_set, bind).

Section action_links.
Context `{Platform}.
Import token_provider usercontroller.

(** A token issued for a claim set decodes to it while it is valid. *)
Lemma verify_token_email_issued
    (claims : dict) (secret alg token : string) (later : world) :
  jwt_laws →
  environ !! "SECRET_KEY" = Some secret →
  environ !! "ALGORITHM" = Some alg →
  jwt_encode claims secret alg = Ret token →
  registered_claims_valid claims (w_now later) = true →
  verify_token_email token later = (Ret (inr claims), later).
Proof.
  intros [Htrue Hblank Hround] Hs Ha Hj Hvalid.
  unfold verify_token_email, try_except, bind.
  rewrite (str_replace_Bearer_id token (Hblank _ _ _ _ Hj)).
  rewrite (jwt_decode_configured_eq token secret alg later Hs Ha).
  by rewrite (Hround _ _ _ _ (w_now later) Hj Hvalid).
Qed.

(** What [create_token] produces for a new dict object, once the signer has
    accepted the payload. *)
Lemma create_token_new_dict (claims : dict) (secret alg token : string) (w : world) :
  environ !! "SECRET_KEY" = Some secret →
  environ !! "ALGORITHM" = Some alg →
  jwt_encode (<["exp" := VInt (w_now w + 30 * 86400)]> claims) secret alg = Ret token →
  token ≠ "" →
  ∃ h, create_token (fresh (dom (w_heap w)))
         (set_heap (<[fresh (dom (w_heap w)) := claims]> (w_heap w)) w)
       = (Ret (inr token), set_heap h w).
Proof.
  intros Hs Ha Hj Hne.
  pose proof (create_token_eq (fresh (dom (w_heap w))) claims
                (set_heap (<[fresh (dom (w_heap w)) := claims]> (w_heap w)) w)) as E.
  cbn [w_heap w_now set_heap] in E. rewrite lookup_insert_eq in E.
  specialize (E eq_refl). cbv zeta in E. rewrite Hs, Ha, Hj in E.
  rewrite (proj2 (truthy_str_true token) Hne) in E. cbn [negb] in E.
  rewrite E. destruct w. eauto.
Qed.

(** X10.  The event of a forgotten password.  For a request whose body
    passes the schema and whose e-mail belongs to a user, with the
    configuration in place and a signer that accepts the payload,
    [ForgotPasswordResource.post] answers EMAIL_SENT_SUCCESSFULLY with 200
    and starts one thread, on the recovery topic, keyed by the user's uuid;
    its payload holds the request's X-TRANSACTION-ID header, the e-mail of
    the request body, the subject, and as template a link made of the
    gateway host, the reset-password path and the token signed for the
    user's e-mail with the expiration thirty days after the request. *)
Theorem forgot_password_event
    (w : world) (data : dict) (email : pyval) (usr : user)
    (secret alg host topic token : string) :
  get_json (w_request w) = Ret data →
  schema_load "ForgotPasswordSchema" data = Ret tt →
  data !! "email" = Some email →
  get_by_email email = Ret (Some usr) →
  environ !! "SECRET_KEY" = Some secret →
  environ !! "ALGORITHM" = Some alg →
  environ !! "API_GATEWAY_HOST" = Some host →
  environ !! "TOPIC_SEND_EMAIL_RECOVERY_PASSWORD" = Some topic →
  jwt_encode (action_claims (u_email usr) (w_now w)) secret alg = Ret token →
  token ≠ "" →
  fst (ForgotPasswordResource_post w) = Ret (BMessage EMAIL_SENT_SUCCESSFULLY, 200)
  ∧ w_threads (snd (ForgotPasswordResource_post w))
    = (w_threads w ++
       [ProducerThread (VStr topic) (u_uuid usr)
          {[ "transaction_id" := header_value w "X-TRANSACTION-ID";
             "email" := email;
             "subject" := VStr "Recovey Password";
             "template" :=
               VStr ("<html><body><a href='" +:+
                     (host +:+ "/auth/users/reset-password/" +:+ token +:+ "/") +:+
                     "'>Clique aqui</a></body></html>") ]}])%list.
Proof.
  intros Hjson Hschema Hemail Huser Hs Ha Hhost Htopic Hj Hne.
  destruct (create_token_new_dict {[ "email" := VStr (u_email usr) ]}
              secret alg token w Hs Ha Hj Hne) as [h Hc].
  unfold ForgotPasswordResource_post, request_get_json, validate_schema,
    internal_server_error, try_except, new_dict, header_value.
  run_handler.
  rewrite Hjson. run_handler. rewrite Hschema. run_handler.
  cbn [truthy_opt]. run_handler. rewrite Hemail. run_handler.
  rewrite Huser. run_handler. rewrite Hc. run_handler.
  rewrite Hhost. run_handler. cbn [w_request set_heap].
  destruct (headers (w_request w) !! "X-TRANSACTION-ID");
    run_handler; rewrite Htopic; run_handler; by destruct w.
Qed.

(** X11.  The links that are sent work, once the account is in the right
    state.  Let the token be the one issued for the e-mail of a user at some
    instant, with the configured secret and algorithm, and let the token
    library keep its laws.  Before the expiration, and while the token is not
    blacklisted, the password-reset handler answers it with its success
    message if the user's e-mail is validated, and the e-mail validation
    handler does if the e-mail is not yet validated and the model can record
    the validation; either handler then stores the token's entry. *)
Theorem action_link_round_trip
    (email : string) (usr : user) (secret alg token : string) (issued_at : Z)
    (later : world) (dumped : dict) :
  jwt_laws →
  environ !! "SECRET_KEY" = Some secret →
  environ !! "ALGORITHM" = Some alg →
  jwt_encode (action_claims email issued_at) secret alg = Ret token →
  w_now later < issued_at + 30 * 86400 →
  blacklisted later token = false →
  get_by_email (VStr email) = Ret (Some usr) →
  schema_dump usr = Ret dumped →
  (u_email_valid usr = true →
   fst (ResetPasswordResource_get token later)
   = Ret (BMessage USER_VALIDATED_SUCCESSFULLY, 200)
   ∧ w_cache (snd (ResetPasswordResource_get token later))
     = <[blacklist_key token := CacheEntry token (Some 604800)]> (w_cache later))
  ∧ (u_email_valid usr = false →
     validate_email usr = Ret tt →
     fst (ValidateEmailResource_get token later)
     = Ret (BMessage USER_VALIDATED_SUCCESSFULLY, 200)
     ∧ w_cache (snd (ValidateEmailResource_get token later))
       = <[blacklist_key token := CacheEntry token (Some 604800)]> (w_cache later)).
Proof.
  intros Hlaws Hs Ha Hj Hlater Hb Huser Hdump.
  assert (verify_token_email token later
          = (Ret (inr (action_claims email issued_at)), later)) as Hv.
  { apply (verify_token_email_issued _ secret alg); try done.
    unfold action_claims. by apply registered_claims_valid_insert_exp. }
  assert (action_claims email issued_at ≠ ∅) as Hnonempty.
  { unfold action_claims. apply insert_non_empty. }
  assert (action_claims email issued_at !! "email" = Some (VStr email)) as Hemail.
  { unfold action_claims. by rewrite lookup_insert_ne, lookup_singleton_eq. }
  unfold blacklisted, blacklist_key in Hb.
  split.
  - intros Hvalid.
    unfold ResetPasswordResource_get, internal_server_error, try_except.
    run_handler. rewrite Hb. run_handler. rewrite Hv. run_handler.
    unfold truthy_verified. rewrite bool_decide_eq_false_2 by done.
    cbn [negb]. unfold verified_getitem. run_handler.
    rewrite Hemail. run_handler. rewrite Huser. run_handler.
    rewrite Hvalid. cbn [negb]. run_handler. rewrite Hdump. run_handler.
    by destruct later.
  - intros Hvalid Hrecord.
    unfold ValidateEmailResource_get, internal_server_error, try_except.
    run_handler. rewrite Hb. run_handler. rewrite Hv. run_handler.
    unfold truthy_verified. rewrite bool_decide_eq_false_2 by done.
    cbn [negb]. unfold verified_getitem. run_handler.
    rewrite Hemail. run_handler. rewrite Huser. run_handler.
    rewrite Hvalid. run_handler. rewrite Hrecord. run_handler.
    rewrite Hdump. run_handler.
    by destruct later.
Qed.

(** X12.  A token that does not decode is answered with 500, not 401, by
    the handlers of single-use tokens.  When the decoder raises an
    [InvalidTokenError] (bad signature, malformed or expired token) for a
    token that is not blacklisted, [verify_token_email] returns its error
    pair; the pair is a non-empty tuple, so the test [if not
    user_authenticated] lets it pass, subscripting it with ['email'] raises
    [TypeError], and the outer [except] answers INTERNAL_SERVER_ERROR with
    status 500.  The cache is left as it was. *)
Theorem undecodable_action_token_is_500 (token : string) (w : world) (e : exn) :
  blacklisted w token = false →
  fst (jwt_decode_configured (bearer_token token) w) = Raise e →
  is_InvalidTokenError e = true →
  (fst (ResetPasswordResource_get token w) = Ret (BMessage INTERNAL_SERVER_ERROR, 500)
   ∧ w_cache (snd (ResetPasswordResource_get token w)) = w_cache w)
  ∧ (fst (ValidateEmailResource_get token w) = Ret (BMessage INTERNAL_SERVER_ERROR, 500)
     ∧ w_cache (snd (ValidateEmailResource_get token w)) = w_cache w).
Proof.
  intros Hb Hd He.
  assert (verify_token_email token w = (Ret (inl (BMessage TOKEN_IS_INVALID, 401)), w))
    as Hv.
  { unfold verify_token_email, try_except, bind, bearer_token in *.
    pose proof (jwt_decode_configured_world (str_replace "Bearer " "" token) w) as Hw.
    destruct (jwt_decode_configured _ w) as [[claims|e'] w']; simpl in *; [done|].
    simplify_eq. by rewrite He. }
  unfold blacklisted, blacklist_key in Hb.
  split.
  - unfold ResetPasswordResource_get, internal_server_error, try_except.
    run_handler. rewrite Hb. run_handler. rewrite Hv. run_handler.
    by destruct w.
  - unfold ValidateEmailResource_get, internal_server_error, try_except.
    run_handler. rewrite Hb. run_handler. rewrite Hv. run_handler.
    by destruct w.
Qed.

End action_links.

(** ** Logging in *)

Section login.
Context `{Platform} `{Accounts}.
Import token_provider usercontroller usercontroller_more.

Lemma prefix_Bearer_app (s : string) : String.prefix "Bearer " ("Bearer " +:+ s) = true.
Proof. by destruct s. Qed.

(** X13.  The token of a login authenticates.  For a request whose body
    passes the login schema, whose e-mail belongs to a user with a validated
    e-mail and whose password matches, [LoginResource.post] answers 200 with
    the text [Bearer ] followed by the token the signer gives for the
    user's [to_json()] extended by [exp], the instant of the login plus
    thirty days.  Presented as the Authorization header of a later request,
    before that instant and while not blacklisted, this text passes
    [verify_token], and the wrapped handler runs on exactly that claim
    set.  The token library keeps its laws, and the user's [to_json()] holds
    no registered claim that the decoder refuses at the later instant. *)
Theorem login_token_authenticates
    (w later : world) (data dumped : dict) (email password : pyval) (usr : user)
    (secret alg token : string) (f : dict → py response) :
  jwt_laws →
  environ !! "SECRET_KEY" = Some secret →
  environ !! "ALGORITHM" = Some alg →
  get_json (w_request w) = Ret data →
  schema_load "UserLoginSchema" data = Ret tt →
  data !! "email" = Some email →
  data !! "password" = Some password →
  get_by_email email = Ret (Some usr) →
  u_email_valid usr = true →
  check_password_hash password (u_password usr) = Ret true →
  jwt_encode (<["exp" := VInt (w_now w + 30 * 86400)]> (to_json usr)) secret alg
  = Ret token →
  schema_dump usr = Ret dumped →
  fst (LoginResource_post w) = Ret (LToken ("Bearer " +:+ token) dumped, 200)
  ∧ (headers (w_request later) !! "Authorization" = Some ("Bearer " +:+ token) →
     blacklisted later token = false →
     w_now later < w_now w + 30 * 86400 →
     other_claims_valid (to_json usr) (w_now later) = true →
     verify_token f later
     = f (<["exp" := VInt (w_now w + 30 * 86400)]> (to_json usr)) later).
Proof.
  intros Hlaws Hs Ha Hjson Hschema Hemail Hpw Huser Hvalid Hhash Hj Hdump.
  assert (token ≠ "") as Hne by (by destruct Hlaws as [Ht _ _]; eapply Ht).
  assert (str_mem " " token = false) as Hblank
    by (by destruct Hlaws as [_ Hb _]; eapply Hb).
  split.
  - destruct (create_token_new_dict (to_json usr) secret alg token w Hs Ha Hj Hne)
      as [h Hc].
    unfold LoginResource_post, request_get_json, validate_schema, try_except, new_dict.
    run_handler. rewrite Hjson. run_handler. rewrite Hschema. run_handler.
    cbn [truthy_opt]. run_handler. rewrite Hemail. run_handler.
    rewrite Huser. run_handler. rewrite Hvalid. cbn [negb]. run_handler.
    rewrite Hpw. run_handler. rewrite Hhash. cbn [negb]. run_handler.
    rewrite Hc. run_handler. rewrite Hdump. run_handler.
    by destruct w.
  - intros Hh Hb Hlater Hother.
    assert (bearer_token ("Bearer " +:+ token) = token) as Htok.
    { unfold bearer_token.
      by rewrite str_replace_Bearer_prefix, str_replace_Bearer_id. }
    apply (verify_token_decoded f later ("Bearer " +:+ token)); try done.
    + apply prefix_Bearer_app.
    + by rewrite Htok.
    + rewrite Htok, (jwt_decode_configured_eq token secret alg later Hs Ha).
      destruct Hlaws as [_ _ Hround].
      rewrite (Hround _ _ _ _ (w_now later) Hj); [done|].
      by apply registered_claims_valid_insert_exp.
Qed.

(** X14.  What a failed login tells.  For a request whose body passes the
    login schema: an e-mail that belongs to no user and a wrong password for
    a validated account get the same answer, INVALID_CREDENTIALS with 401;
    an account whose e-mail is not validated gets USER_NON_VALIDATED_EMAIL
    with 400 before the password is looked at, whatever the body holds for
    it; and correct credentials get ERROR_CREATING_TOKEN with 401 when
    SECRET_KEY is not configured.  None of these starts a thread or touches
    the cache. *)
Theorem login_failures
    (w : world) (data : dict) (email : pyval) :
  get_json (w_request w) = Ret data →
  schema_load "UserLoginSchema" data = Ret tt →
  data !! "email" = Some email →
  let answer := fst (LoginResource_post w) in
  let after := snd (LoginResource_post w) in
  (w_threads after = w_threads w ∧ w_cache after = w_cache w)
  ∧ (get_by_email email = Ret None → answer = Ret (LInvalidCredentials, 401))
  ∧ (∀ usr password,
       get_by_email email = Ret (Some usr) →
       u_email_valid usr = true →
       data !! "password" = Some password →
       check_password_hash password (u_password usr) = Ret false →
       answer = Ret (LInvalidCredentials, 401))
  ∧ (∀ usr,
       get_by_email email = Ret (Some usr) →
       u_email_valid usr = false →
       answer = Ret (LMessage USER_NON_VALIDATED_EMAIL, 400))
  ∧ (∀ usr password,
       get_by_email email = Ret (Some usr) →
       u_email_valid usr = true →
       data !! "password" = Some password →
       check_password_hash password (u_password usr) = Ret true →
       environ !! "SECRET_KEY" = None →
       answer = Ret (LErrorCreatingToken, 401)).
Proof.
  intros Hjson Hschema Hemail answer after. subst answer after.
  split; [|repeat split].
  - unfold LoginResource_post, request_get_json, validate_schema, try_except.
    run_handler. rewrite Hjson. run_handler. rewrite Hschema. run_handler.
    cbn [truthy_opt]. run_handler. rewrite Hemail. run_handler.
    repeat (case_match; simplify_eq/=;
            repeat match goal with
              | E : new_dict _ _ = (_, _) |- _ => apply new_dict_frame in E as [? ->]
              | E : create_token _ _ = (_, _) |- _ =>
                  apply create_token_frame in E as [? ->]
              end); done.
  - intros Huser.
    unfold LoginResource_post, request_get_json, validate_schema, try_except.
    run_handler. rewrite Hjson. run_handler. rewrite Hschema. run_handler.
    cbn [truthy_opt]. run_handler. rewrite Hemail. run_handler.
    by rewrite Huser.
  - intros usr password Huser Hvalid Hpw Hhash.
    unfold LoginResource_post, request_get_json, validate_schema, try_except.
    run_handler. rewrite Hjson. run_handler. rewrite Hschema. run_handler.
    cbn [truthy_opt]. run_handler. rewrite Hemail. run_handler.
    rewrite Huser. run_handler. rewrite Hvalid. cbn [negb]. run_handler.
    rewrite Hpw. run_handler. by rewrite Hhash.
  - intros usr Huser Hvalid.
    unfold LoginResource_post, request_get_json, validate_schema, try_except.
    run_handler. rewrite Hjson. run_handler. rewrite Hschema. run_handler.
    cbn [truthy_opt]. run_handler. rewrite Hemail. run_handler.
    rewrite Huser. run_handler. by rewrite Hvalid.
  - intros usr password Huser Hvalid Hpw Hhash Hcfg.
    unfold LoginResource_post, request_get_json, validate_schema, try_except, new_dict.
    run_handler. rewrite Hjson. run_handler. rewrite Hschema. run_handler.
    cbn [truthy_opt]. run_handler. rewrite Hemail. run_handler.
    rewrite Huser. run_handler. rewrite Hvalid. cbn [negb]. run_handler.
    rewrite Hpw. run_handler. rewrite Hhash. cbn [negb]. run_handler.
    unfold create_token, dict_setitem, deref, clock. run_handler.
    cbn [w_heap set_heap]. rewrite lookup_insert_eq. run_handler.
    by rewrite Hcfg.
Qed.

(** X15.  [get_page_args] returns the page of the query, or 1; the page size
    of the query, or the configured PER_PAGE; and as offset the product of
    the page minus one and the page size.  It reads PER_PAGE before it looks
    at the query: without PER_PAGE in the configuration it raises
    [UndefinedValueError], and with a PER_PAGE that is no integer
    [ValueError], even when the query states the page size. *)
Theorem get_page_args_offset (args : gmap string string) (w : world) :
  (∀ text per_page_default,
     environ !! "PER_PAGE" = Some text →
     py_int text = Some per_page_default →
     ∃ page per_page,
       get_page_args args w = (Ret (page, per_page, (page - 1) * per_page), w)
       ∧ page = args_get_int args "page" 1
       ∧ per_page = args_get_int args "per_page" per_page_default
       ∧ (args !! "page" = None → page = 1)
       ∧ (args !! "per_page" = None → per_page = per_page_default)
       ∧ (args !! "page" = None → (page - 1) * per_page = 0))
  ∧ (environ !! "PER_PAGE" = None →
     get_page_args args w = (Raise (UndefinedValueError "PER_PAGE"), w))
  ∧ (∀ text, environ !! "PER_PAGE" = Some text → py_int text = None →
     ∃ what, get_page_args args w = (Raise (ValueError what), w)).
Proof.
  unfold get_page_args, bind, config_env, ret, raise.
  split; [|split].
  - intros text d Ht Hd. rewrite Ht, Hd. do 2 eexists. split; [reflexivity|].
    unfold args_get_int. repeat split; try done.
    + by intros ->.
    + by intros ->.
    + intros ->. lia.
  - by intros ->.
  - intros text Ht Hd. rewrite Ht, Hd. eauto.
Qed.

End login.

(** ** The Kafka service: records, probes and keys *)

Section kafka_edges.
Context `{Kafka}.
Import kafkaservice.

(** X16.  A record that cannot be decoded stops the subscriber.  Let the
    subscriber be connected and subscribed and the records of [before] be
    handled.  If decoding the key or the value of the next record raises
    (a missing key, text that is no JSON), the handler is not called for that
    record, and the exception ends the loop like one of the handler: a
    [KafkaError] is printed and the subscriber returns, any other exception
    leaves the subscriber.  The records of [after] are never handled. *)
Theorem consumer_stops_at_undecodable_record
    (topic : string) (callback : string → pyval → py unit)
    (before after : list kafka_message) (message : kafka_message)
    (e : exn) (w w1 : world) :
  KafkaConsumer_init (w_now w) = Ret tt →
  KafkaConsumer_subscribe [topic] = Ret tt →
  KafkaConsumer_poll = Ret tt →
  consume callback before w = (Ret tt, w1) →
  km_key message = Raise e
  ∨ (∃ key, km_key message = Ret key ∧ km_value message = Raise e) →
  consumer_subscribed topic callback (before ++ message :: after) w =
    if is_KafkaError e
    then (Ret Returned, set_stdout (w_stdout w1 ++ [failure_line e]) w1)
    else (Raise e, w1).
Proof.
  intros Hi Hs Hp Hb Hbad.
  unfold consumer_subscribed, try_except, bind, clock, lift.
  rewrite Hi, Hs, consume_app, Hb.
  cbn [consume]. unfold bind, lift. rewrite Hp.
  destruct Hbad as [Hk|(key & Hk & Hv)].
  - rewrite Hk. by destruct (is_KafkaError e).
  - rewrite Hk, Hv. by destruct (is_KafkaError e).
Qed.

Lemma wait_for_broker_crash (n fuel : nat) (w : world) (e : exn) :
  KafkaConsumer_init (w_now w + Z.of_nat n) = Raise e →
  is_KafkaError e = false →
  (∀ i : nat, (i < n)%nat → refuses (w_now w + Z.of_nat i)) →
  (n < fuel)%nat →
  wait_for_broker fuel w = Some (Raise e, set_now (w_now w + Z.of_nat n) w).
Proof.
  revert fuel w. induction n as [|n IH]; intros [|fuel] w He Hk Hr Hf; try lia;
    rewrite wait_for_broker_S.
  - rewrite Z.add_0_r in *. by rewrite He, Hk, set_now_same.
  - destruct (Hr 0%nat) as (e0 & Ei & Ek); [lia|].
    rewrite Z.add_0_r in Ei. rewrite Ei, Ek.
    rewrite (IH fuel (set_now (w_now w + 1) w)); cbn [w_now set_now].
    + rewrite set_now_twice. do 3 f_equal. lia.
    + by replace (w_now w + 1 + Z.of_nat n) with (w_now w + Z.of_nat (S n)) by lia.
    + done.
    + intros i Hi.
      replace (w_now w + 1 + Z.of_nat i) with (w_now w + Z.of_nat (S i)) by lia.
      apply Hr. lia.
    + lia.
Qed.

(** X17.  A probe that fails with anything but a [KafkaError] ends the wait.
    If the probes at now, ..., now+n-1 report the broker unavailable and the
    probe at now+n raises an exception of another class, the wait loop ends
    at now+n with that exception, and [consumer] raises it without
    connecting, subscribing or handling a record. *)
Theorem wait_for_broker_probe_crash
    (n fuel : nat) (w : world) (e : exn)
    (topic : string) (callback : string → pyval → py unit)
    (inbox : list kafka_message) :
  KafkaConsumer_init (w_now w + Z.of_nat n) = Raise e →
  is_KafkaError e = false →
  (∀ i : nat, (i < n)%nat → refuses (w_now w + Z.of_nat i)) →
  (n < fuel)%nat →
  wait_for_broker fuel w = Some (Raise e, set_now (w_now w + Z.of_nat n) w)
  ∧ consumer fuel topic callback inbox w
    = Some (Raise e, set_now (w_now w + Z.of_nat n) w).
Proof.
  intros He Hk Hr Hf.
  pose proof (wait_for_broker_crash n fuel w e He Hk Hr Hf) as Hw.
  split; [done|]. unfold consumer. by rewrite Hw.
Qed.

(** X18.  The key of [producer] must be a [str].  Once connected, a key
    that is [None] or any object other than a [str] makes [key.encode] raise
    [AttributeError], which the [except KafkaError] clause lets through:
    nothing is sent and nothing is printed.  If connecting itself fails
    with a [KafkaError], the key is never looked at: the failure is printed
    and [producer] returns. *)
Theorem producer_key_must_be_str (topic key : pyval) (value : dict) (w : world) :
  (∀ s, key ≠ VStr s) →
  (KafkaProducer_init = Ret tt →
   ∃ what, producer topic key value w = (Raise (AttributeError what), w))
  ∧ (∀ e, KafkaProducer_init = Raise e → is_KafkaError e = true →
     producer topic key value w
     = (Ret tt, set_stdout (w_stdout w ++ [failure_line e]) w)).
Proof.
  intros Hkey. split.
  - intros Hi. unfold producer, try_except, bind, lift, str_encode, raise.
    rewrite Hi. destruct key as [| | |s|]; eauto. by destruct (Hkey s).
  - intros e Hi Hk. unfold producer, try_except, bind, lift, print, modify.
    by rewrite Hi, Hk.
Qed.

End kafka_edges.

(** ** The middleware: durations and missing hooks *)

Section middleware_edges.
Context `{Platform}.
Import middlewares.

(** X19.  The audit event measures the request.  For a request that is not
    the liveness probe, in any world that still has the request context the
    [before_request] functions left in world [w], the audit event carries
    as duration the time between the two worlds' clocks and as status the
    status of the response. *)
Theorem audit_duration_is_elapsed_time (resp : response) (w later : world) :
  endpoint (w_request w) ≠ Some "health" →
  w_request later = w_request (snd (before_request w)) →
  ∃ th,
    w_threads (snd (register_request_log resp later)) = (w_threads later ++ [th])%list
    ∧ th_value th !! "duration" = Some (VInt (w_now later - w_now w))
    ∧ th_value th !! "status" = Some (VInt (snd resp)).
Proof.
  intros He Hr.
  destruct (before_request_eq w) as [draws Eb]. rewrite Eb in Hr. cbn in Hr.
  eexists. split.
  - rewrite (register_request_log_eq resp later (correlation_id w) (w_now w));
      [reflexivity|by rewrite Hr..].
  - by split.
Qed.

(** X20.  The audit needs the hooks.  For a request that is not the liveness
    probe and lacks the [transaction_id] or the [start_time] attribute (the
    [before_request] functions did not run), [register_request_log] raises
    [AttributeError]: no thread is started, the response is not returned,
    and the world is left as it was. *)
Theorem audit_needs_the_hooks (resp : response) (w : world) :
  endpoint (w_request w) ≠ Some "health" →
  transaction_id (w_request w) = None ∨ start_time (w_request w) = None →
  ∃ what, register_request_log resp w = (Raise (AttributeError what), w).
Proof.
  intros He Hmiss.
  unfold register_request_log, bind, get_world, clock, getattr, raise, ret.
  rewrite bool_decide_eq_false_2 by done.
  destruct (transaction_id (w_request w)) as [tid|].
  - destruct Hmiss as [?|Hs]; [done|]. rewrite Hs. eauto.
  - eauto.
Qed.

End middleware_edges.

(** ** The Swagger document *)

Section swagger.
Import gateway_docs.

Lemma dict_set_fresh (key : string) (v : json) (d : list (string * json)) :
  key ∉ d.*1 → dict_set key v d = (d ++ [(key, v)])%list.
Proof.
  induction d as [|[k x] d IH]; [done|].
  intros Hk. cbn [dict_set]. rewrite fmap_cons, not_elem_of_cons in Hk.
  destruct Hk as [Hne Hk]. cbn [fst] in Hne.
  destruct (String.eqb_spec k key) as [->|_]; [done|].
  by rewrite IH.
Qed.

Lemma properties_fold (types : field → list (string * json))
    (fields : list (string * field)) (acc : list (string * json)) :
  NoDup (acc.*1 ++ fields.*1) →
  fold_left (λ properties item, dict_set item.1 (JObj (types item.2)) properties)
    fields acc
  = (acc ++ ((λ item, (item.1, JObj (types item.2))) <$> fields))%list.
Proof.
  revert acc. induction fields as [|[name f] fields IH]; intros acc Hnd.
  - by rewrite app_nil_r.
  - cbn [fold_left fst snd]. rewrite dict_set_fresh.
    + rewrite IH.
      * by rewrite <- app_assoc.
      * rewrite fmap_app. cbn. rewrite <- app_assoc. exact Hnd.
    + rewrite fmap_cons in Hnd. cbn [fst] in Hnd.
      apply NoDup_app in Hnd as (_ & Hdisj & _).
      intros Hin. apply (Hdisj name Hin). left.
Qed.

(** X21.  The Swagger document of a schema.  For fields with distinct
    names, [convert_to_swagger_dict] gives an object whose properties are
    the schema's fields, one entry each and in the order of the fields, the
    entry of a field being the types dict of that field alone; and the types
    dict of a nested field is exactly the document of its own schema. *)
Theorem swagger_properties_follow_fields (fields : list (string * field)) :
  NoDup fields.*1 →
  convert_to_swagger_dict fields
  = [("type", JStr "object");
     ("properties", JObj ((λ item, (item.1, JObj (types_of item.2))) <$> fields))]
  ∧ ∀ schema, types_of (Field "nested" schema) = convert_to_swagger_dict schema.
Proof.
  intros Hnd. split.
  - unfold convert_to_swagger_dict, properties_of.
    by rewrite (properties_fold types_of fields []).
  - done.
Qed.

End swagger.

(** ** The further properties on concrete requests *)

Lemma demo_jwt_rejects_empty : jwt_rejects_empty (H := demo.platform).
Proof. intros key algs now. by eexists. Qed.

Lemma demo_cache_empty (now : Z) (r : request) : cache_values_true (demo.world_at now r ∅).
Proof. intros key entry E. vm_compute in E. discriminate E. Qed.

Lemma demo_token_not_empty (claims : dict) : demo.token_of claims ≠ "".
Proof. unfold demo.token_of. discriminate. Qed.

Lemma verify_token_without_configuration_witness :
  let w := demo.world_at 100 (demo.request_with {[ "Authorization" := "Bearer abc" ]}) ∅ in
  token_provider.verify_token (H := demo.platform_unconfigured) demo.echo w
  = (Ret (BMessage TOKEN_IS_INVALID, 401), w).
Proof.
  intros w.
  apply (verify_token_without_configuration (H := demo.platform_unconfigured)
           demo.echo w "Bearer abc").
  - left. reflexivity.
  - reflexivity.
  - reflexivity.
  - reflexivity.
Defined.

Lemma admin_route_raises_without_flag_witness :
  let claims : dict := {[ "uuid" := VStr "u1"; "exp" := VInt 5000 ]} in
  let w := demo.world_at 100
             (demo.request_with
                {[ "Authorization" := "Bearer " +:+ demo.token_of claims ]}) ∅ in
  guarded (H := demo.platform) true demo.echo w = (Raise (KeyError "is_admin"), w).
Proof.
  intros claims w.
  apply (admin_route_raises_without_flag (H := demo.platform) demo.echo w
           ("Bearer " +:+ demo.token_of claims) claims);
    vm_compute; reflexivity.
Defined.


Lemma logout_then_rejected_witness :
  let live := demo.token_of (demo.claims_of "u1" false 5000) in
  let w := demo.world_at 100
             (demo.request_with {[ "Authorization" := "Bearer " +:+ live ]}) ∅ in
  let w' := snd (usercontroller.LogoutResource_get (H := demo.platform) w) in
  token_provider.verify_token (H := demo.platform) demo.echo w'
  = (Ret (BMessage TOKEN_IS_INVALID, 401), w').
Proof.
  intros live w w'.
  apply (logout_then_rejected (H := demo.platform) demo.echo w w' w').
  - exact demo_jwt_rejects_empty.
  - subst w'. rewrite (surjective_pairing (usercontroller.LogoutResource_get w)).
    f_equal; vm_compute; reflexivity.
  - vm_compute. reflexivity.
  - reflexivity.
Defined.

Lemma action_token_single_use_witness :
  let token := demo.token_of (action_claims "alice@example.com" 100) in
  let w := demo.world_at 200 (demo.request_with ∅) ∅ in
  let w' := snd (usercontroller.ResetPasswordResource_get (H := demo.platform) token w) in
  fst (usercontroller.ResetPasswordResource_get (H := demo.platform) token w')
  = Ret (BMessage TOKEN_IS_INVALID, 401)
  ∧ w_cache (snd (usercontroller.ResetPasswordResource_get (H := demo.platform) token w'))
    = w_cache w'.
Proof.
  intros token w w'.
  apply (proj1 (action_token_single_use (H := demo.platform) token w w' w'
                  (demo_token_not_empty _) eq_refl)).
  subst w'.
  rewrite (surjective_pairing (usercontroller.ResetPasswordResource_get token w)).
  f_equal; vm_compute; reflexivity.
Defined.

Lemma revocation_only_grows_witness :
  let token := demo.token_of (action_claims "alice@example.com" 100) in
  let w := demo.world_at 200 (demo.request_with ∅) ∅ in
  let w' := snd (usercontroller.ResetPasswordResource_get (H := demo.platform) token w) in
  w_cache w ⊆ w_cache w' ∧ cache_values_true w'.
Proof.
  intros token w w'.
  apply (proj1 (proj2 (revocation_only_grows (H := demo.platform) token w
                         (demo_cache_empty _ _) demo_jwt_rejects_empty
                         (demo_token_not_empty _)))
           (fst (usercontroller.ResetPasswordResource_get (H := demo.platform) token w))).
  subst w'. apply surjective_pairing.
Defined.

Lemma forgot_password_event_witness :
  let w := demo.world_at 100
             (demo.json_request {[ "X-TRANSACTION-ID" := "tx-9" ]}
                {[ "email" := VStr "alice@example.com" ]}) ∅ in
  let token := demo.token_of (action_claims "alice@example.com" 100) in
  fst (usercontroller.ForgotPasswordResource_post (H := demo.platform) w)
  = Ret (BMessage EMAIL_SENT_SUCCESSFULLY, 200)
  ∧ w_threads (snd (usercontroller.ForgotPasswordResource_post (H := demo.platform) w))
    = [ProducerThread (VStr "email.recovery") (VStr "u1")
         {[ "transaction_id" := VStr "tx-9";
            "email" := VStr "alice@example.com";
            "subject" := VStr "Recovey Password";
            "template" :=
              VStr ("<html><body><a href='" +:+
                    ("http://gateway" +:+ "/auth/users/reset-password/" +:+ token +:+ "/")
                    +:+ "'>Clique aqui</a></body></html>") ]}].
Proof.
  intros w token.
  apply (forgot_password_event (H := demo.platform) w
           {[ "email" := VStr "alice@example.com" ]} (VStr "alice@example.com")
           demo.alice "s3cret" "HS256" "http://gateway" "email.recovery" token);
    try reflexivity.
  apply demo_token_not_empty.
Defined.

Lemma action_link_round_trip_witness :
  let token := demo.token_of (action_claims "alice@example.com" 100) in
  let later := demo.world_at 200 (demo.request_with ∅) ∅ in
  fst (usercontroller.ResetPasswordResource_get (H := demo.platform) token later)
  = Ret (BMessage USER_VALIDATED_SUCCESSFULLY, 200)
  ∧ w_cache (snd (usercontroller.ResetPasswordResource_get (H := demo.platform)
                    token later))
    = <[blacklist_key token := CacheEntry token (Some 604800)]> (w_cache later).
Proof.
  intros token later.
  apply (proj1 (action_link_round_trip (H := demo.platform) "alice@example.com"
                  demo.alice "s3cret" "HS256" token 100 later
                  {[ "email" := VStr "alice@example.com" ]}
                  demo_jwt_laws eq_refl eq_refl eq_refl eq_refl eq_refl eq_refl eq_refl)).
  reflexivity.
Defined.

Lemma undecodable_action_token_is_500_witness :
  let token := demo.token_of (action_claims "alice@example.com" 100) in
  let w := demo.world_at 3000000 (demo.request_with ∅) ∅ in
  (fst (usercontroller.ResetPasswordResource_get (H := demo.platform) token w)
   = Ret (BMessage INTERNAL_SERVER_ERROR, 500)
   ∧ w_cache (snd (usercontroller.ResetPasswordResource_get (H := demo.platform) token w))
     = w_cache w)
  ∧ (fst (usercontroller.ValidateEmailResource_get (H := demo.platform) token w)
     = Ret (BMessage INTERNAL_SERVER_ERROR, 500)
     ∧ w_cache (snd (usercontroller.ValidateEmailResource_get (H := demo.platform) token w))
       = w_cache w).
Proof.
  intros token w.
  apply (undecodable_action_token_is_500 (H := demo.platform) token w
           (InvalidTokenError "Signature has expired"));
    vm_compute; reflexivity.
Defined.

Lemma login_token_authenticates_witness :
  let data : dict := {[ "email" := VStr "alice@example.com"; "password" := VStr "pw" ]} in
  let w := demo.world_at 100 (demo.json_request ∅ data) ∅ in
  let claims : dict :=
    <["exp" := VInt (100 + 30 * 86400)]> (to_json (Accounts := demo.accounts) demo.alice) in
  let token := demo.token_of claims in
  let later := demo.world_at 500
                 (demo.request_with {[ "Authorization" := "Bearer " +:+ token ]}) ∅ in
  fst (usercontroller_more.LoginResource_post (H := demo.platform) (H0 := demo.accounts) w)
  = Ret (usercontroller_more.LToken ("Bearer " +:+ token)
           {[ "email" := VStr "alice@example.com" ]}, 200)
  ∧ token_provider.verify_token (H := demo.platform) demo.echo later
    = demo.echo claims later.
Proof.
  intros data w claims token later.
  destruct (login_token_authenticates (H := demo.platform) (H0 := demo.accounts)
              w later data {[ "email" := VStr "alice@example.com" ]}
              (VStr "alice@example.com") (VStr "pw") demo.alice
              "s3cret" "HS256" token demo.echo
              demo_jwt_laws eq_refl eq_refl eq_refl eq_refl eq_refl eq_refl eq_refl
              eq_refl eq_refl eq_refl eq_refl) as [Hlogin Hguard].
  split; [exact Hlogin|].
  apply Hguard; [reflexivity|reflexivity| |reflexivity].
  vm_compute. reflexivity.
Defined.

Lemma login_failures_witness :
  let data : dict := {[ "email" := VStr "nobody@example.com"; "password" := VStr "pw" ]} in
  let w := demo.world_at 100 (demo.json_request ∅ data) ∅ in
  fst (usercontroller_more.LoginResource_post (H := demo.platform) (H0 := demo.accounts) w)
  = Ret (usercontroller_more.LInvalidCredentials, 401).
Proof.
  intros data w.
  destruct (login_failures (H := demo.platform) (H0 := demo.accounts) w data
              (VStr "nobody@example.com") eq_refl eq_refl eq_refl)
    as (_ & Hunknown & _).
  apply Hunknown. reflexivity.
Defined.

Example login_wrong_password_and_unvalidated :
  let wrong : dict := {[ "email" := VStr "alice@example.com"; "password" := VStr "no" ]} in
  let pending : dict := {[ "email" := VStr "bob@example.com" ]} in
  fst (usercontroller_more.LoginResource_post (H := demo.platform) (H0 := demo.accounts)
         (demo.world_at 100 (demo.json_request ∅ wrong) ∅))
  = Ret (usercontroller_more.LInvalidCredentials, 401)
  ∧ fst (usercontroller_more.LoginResource_post (H := demo.platform) (H0 := demo.accounts)
           (demo.world_at 100 (demo.json_request ∅ pending) ∅))
    = Ret (usercontroller_more.LMessage USER_NON_VALIDATED_EMAIL, 400).
Proof. split; vm_compute; reflexivity. Qed.

Example get_page_args_runs :
  let paged : Platform := {|
    environ := {[ "PER_PAGE" := "10" ]};
    jwt_encode := demo.toy_encode; jwt_decode := demo.toy_decode;
    get_by_email := λ _, Ret None; validate_email := λ _, Ret tt;
    schema_load := λ _ _, Ret tt; schema_dump := λ _, Ret ∅;
    str_datetime := λ t, pretty t; uuid4_draw := λ n, pretty n; app_name := "auth" |} in
  fst (usercontroller_more.get_page_args (H := paged) (H0 := demo.accounts)
         {[ "page" := "3" ]} demo.idle) = Ret (3, 10, 20)
  ∧ fst (usercontroller_more.get_page_args (H := paged) (H0 := demo.accounts)
           {[ "page" := "0"; "per_page" := "25" ]} demo.idle) = Ret (0, 25, -25)
  ∧ fst (usercontroller_more.get_page_args (H := paged) (H0 := demo.accounts)
           {[ "page" := "x" ]} demo.idle) = Ret (1, 10, 0)
  ∧ fst (usercontroller_more.get_page_args (H := demo.platform) (H0 := demo.accounts)
           {[ "per_page" := "25" ]} demo.idle) = Raise (UndefinedValueError "PER_PAGE").
Proof. repeat split; vm_compute; reflexivity. Qed.

Lemma consumer_stops_at_undecodable_record_witness :
  kafkaservice.consumer_subscribed (H := demo.kafka_up) "email.validation"
    (demo.handler_raising (ValueError "boom"))
    ([demo.record_with "a"] ++
     KafkaMessage (Ret "b") (Raise (ValueError "Expecting value")) ::
     [demo.record_with "c"])
    demo.idle
  = (Raise (ValueError "Expecting value"), set_stdout ["handled a"] demo.idle).
Proof.
  apply (consumer_stops_at_undecodable_record (H := demo.kafka_up) "email.validation"
           (demo.handler_raising (ValueError "boom"))
           [demo.record_with "a"] [demo.record_with "c"]
           (KafkaMessage (Ret "b") (Raise (ValueError "Expecting value")))
           (ValueError "Expecting value") demo.idle
           (set_stdout ["handled a"] demo.idle)); try reflexivity.
  right. by exists "b".
Defined.

Lemma wait_for_broker_probe_crash_witness :
  kafkaservice.wait_for_broker (H := demo.kafka_probe_crashes_from 2) 10 demo.idle
  = Some (Raise (ValueError "Unrecognized configs"), set_now 2 demo.idle)
  ∧ kafkaservice.consumer (H := demo.kafka_probe_crashes_from 2) 10 "email.validation"
      (demo.handler_raising (ValueError "boom")) [demo.record_with "a"] demo.idle
    = Some (Raise (ValueError "Unrecognized configs"), set_now 2 demo.idle).
Proof.
  apply (wait_for_broker_probe_crash (H := demo.kafka_probe_crashes_from 2)
           2%nat 10%nat demo.idle (ValueError "Unrecognized configs")).
  - reflexivity.
  - reflexivity.
  - intros i Hi. exists (KafkaError "NoBrokersAvailable"). split; [|reflexivity].
    cbn [KafkaConsumer_init demo.kafka_probe_crashes_from demo.idle demo.world_at w_now].
    destruct (Z.ltb_spec (0 + Z.of_nat i) 2); [reflexivity|lia].
  - lia.
Defined.

Lemma producer_key_must_be_str_witness :
  ∃ what,
    kafkaservice.producer (H := demo.kafka_up) (VStr "email.recovery") VNone
      {[ "email" := VStr "alice@example.com" ]} demo.idle
    = (Raise (AttributeError what), demo.idle).
Proof.
  apply (proj1 (producer_key_must_be_str (H := demo.kafka_up) (VStr "email.recovery")
                  VNone {[ "email" := VStr "alice@example.com" ]} demo.idle
                  (λ s, ltac:(discriminate)))).
  reflexivity.
Defined.

Lemma audit_duration_is_elapsed_time_witness :
  let w := demo.world_at 100 (demo.routed_request ∅) ∅ in
  let later := set_now 107 (snd (middlewares.before_request (H := demo.platform) w)) in
  ∃ th,
    w_threads (snd (middlewares.register_request_log (H := demo.platform)
                      (BOther "ok", 200) later)) = [th]
    ∧ th_value th !! "duration" = Some (VInt 7)
    ∧ th_value th !! "status" = Some (VInt 200).
Proof.
  intros w later.
  apply (audit_duration_is_elapsed_time (H := demo.platform) (BOther "ok", 200) w later).
  - discriminate.
  - reflexivity.
Defined.

Lemma audit_needs_the_hooks_witness :
  let w := demo.world_at 100 (demo.request_with ∅) ∅ in
  ∃ what,
    middlewares.register_request_log (H := demo.platform) (BOther "ok", 200) w
    = (Raise (AttributeError what), w).
Proof.
  intros w.
  apply (audit_needs_the_hooks (H := demo.platform) (BOther "ok", 200) w).
  - discriminate.
  - left. reflexivity.
Defined.

Lemma swagger_properties_follow_fields_witness :
  let owner := [("email", gateway_docs.Field "email" [])] in
  let fields := [("name", gateway_docs.Field "string" []);
                 ("created", gateway_docs.Field "datetime" []);
                 ("owner", gateway_docs.Field "nested" owner)] in
  gateway_docs.convert_to_swagger_dict fields
  = [("type", gateway_docs.JStr "object");
     ("properties",
      gateway_docs.JObj
        ((λ item, (item.1, gateway_docs.JObj (gateway_docs.types_of item.2))) <$> fields))]
  ∧ ∀ schema, gateway_docs.types_of (gateway_docs.Field "nested" schema)
              = gateway_docs.convert_to_swagger_dict schema.
Proof.
  intros owner fields.
  apply (swagger_properties_follow_fields fields).
  apply (bool_decide_unpack _). by vm_compute.
Defined.

Example swagger_document :
  gateway_docs.convert_to_swagger_dict
    [("created", gateway_docs.Field "datetime" []);
     ("tags", gateway_docs.Field "list" []);
     ("owner", gateway_docs.Field "nested" [("email", gateway_docs.Field "email" [])])]
  = [("type", gateway_docs.JStr "object");
     ("properties",
      gateway_docs.JObj
        [("created", gateway_docs.JObj [("type", gateway_docs.JStr "string");
                                        ("format", gateway_docs.JStr "date-time")]);
         ("tags", gateway_docs.JObj [("items", gateway_docs.JObj []);
                                     ("type", gateway_docs.JStr "array")]);
         ("owner",
          gateway_docs.JObj
            [("type", gateway_docs.JStr "object");
             ("properties",
              gateway_docs.JObj
                [("email", gateway_docs.JObj [("type", gateway_docs.JStr "string");
                                              ("format", gateway_docs.JStr "email")])])])])].
Proof. vm_compute. reflexivity. Qed.
